(** * Automated SEO audit tool: a shallow embedding of [ai_seo_auditor.py]

    The development follows the Python script function by function:
    - [PyStr]: the [str] methods the script and its libraries rely on;
    - [Urllib]: [urllib.parse.urlsplit], [urlparse], [urlunparse] and
      [urljoin], transcribed from CPython 3.11's [urllib/parse.py];
    - [Bs4]: the BeautifulSoup tree and the queries the script performs on it;
    - [Base64]: [base64.b64encode];
    - section [Auditor]: the script itself ([get_base_url_from_html],
      [parse_html], [generate_audit_report], [send_to_mistral],
      [create_download_link] and the Streamlit body), parameterised by the
      outside world (HTTP, the text-generation endpoint, the HTML parser and
      [json.dumps]);
    - [Example]: a scripted world and a few documents with their trees;
    - section [Properties]: what the script guarantees, for every world;
    - the same statements on the documents of [Example].

    The script runs in a state monad with exceptions: [urlparse] may raise
    [ValueError], [requests] may raise an exception the script does not catch,
    the Streamlit body may stop or read an unbound variable, and the requests
    sent are logged in the state.

    Python [str] values are modelled by [string]; a character outside ASCII
    is carried as the bytes of its UTF-8 encoding, so the whitespace class seen
    by [strip] is the ASCII part of [str.isspace] and [len] counts bytes. *)

From Stdlib Require Import String Ascii List ZArith Lia Bool Arith.
From Stdlib Require Import DecimalString.
Import ListNotations.
Set Warnings "-register-all".
Local Open Scope list_scope.
Local Open Scope string_scope.

(** ** Exceptions and results *)

Inductive exn : Type :=
| ValueError      (* urllib.parse: invalid netloc *)
| TypeError       (* markup that is not text, a subscript on a non-dict *)
| KeyError        (* a missing dictionary key *)
| NameError       (* a variable read before any assignment *)
| StopException   (* st.stop() *)
| LibraryError (name : string).
                  (* an exception of any other class, raised inside a library
                     call and named by its class *)

Inductive result (A : Type) : Type :=
| Ok (a : A)
| Raise (e : exn).
Arguments Ok {A} a.
Arguments Raise {A} e.

Definition rbind {A B} (r : result A) (k : A -> result B) : result B :=
  match r with
  | Ok a => k a
  | Raise e => Raise e
  end.

Fixpoint rmap {A B} (f : A -> result B) (l : list A) : result (list B) :=
  match l with
  | [] => Ok []
  | x :: t =>
      rbind (f x) (fun y => rbind (rmap f t) (fun ys => Ok (y :: ys)))
  end.

(** Closed equations between concrete runs are settled by evaluation. *)
Ltac evaluate := vm_compute; reflexivity.

(** ** Python string methods *)

Module PyStr.

Definition nl : string := String (ascii_of_nat 10) EmptyString.

Definition chars (s : string) : list ascii := list_ascii_of_string s.
Definition of_chars (l : list ascii) : string := string_of_list_ascii l.

Definition code (c : ascii) : nat := nat_of_ascii c.

(** [c in s] for a one-character [c]. *)
Definition mem (c : ascii) (s : string) : bool :=
  existsb (Ascii.eqb c) (chars s).

(** [str.isspace] on the ASCII range: \t \n \v \f \r, \x1c-\x1f and space. *)
Definition isspace (c : ascii) : bool :=
  (((9 <=? code c) && (code c <=? 13)) || ((28 <=? code c) && (code c <=? 32)))%nat.

Definition isupper (c : ascii) : bool := ((65 <=? code c) && (code c <=? 90))%nat.
Definition islower (c : ascii) : bool := ((97 <=? code c) && (code c <=? 122))%nat.
Definition isdigit (c : ascii) : bool := ((48 <=? code c) && (code c <=? 57))%nat.
(** [c.isascii() and c.isalpha()] *)
Definition isascii_alpha (c : ascii) : bool := isupper c || islower c.
Definition isascii (c : ascii) : bool := (code c <? 128)%nat.

Definition lower_char (c : ascii) : ascii :=
  if isupper c then ascii_of_nat (code c + 32) else c.
Definition lower (s : string) : string := of_chars (map lower_char (chars s)).

Fixpoint dropwhile (p : ascii -> bool) (l : list ascii) : list ascii :=
  match l with
  | [] => []
  | c :: t => if p c then dropwhile p t else l
  end.

Fixpoint takewhile (p : ascii -> bool) (l : list ascii) : list ascii :=
  match l with
  | [] => []
  | c :: t => if p c then c :: takewhile p t else []
  end.

Definition lstrip_by (p : ascii -> bool) (s : string) : string :=
  of_chars (dropwhile p (chars s)).
Definition rstrip_by (p : ascii -> bool) (s : string) : string :=
  of_chars (rev (dropwhile p (rev (chars s)))).
Definition strip_by (p : ascii -> bool) (s : string) : string :=
  rstrip_by p (lstrip_by p s).

(** [s.strip()] *)
Definition strip (s : string) : string := strip_by isspace s.

(** [s.replace(c, "")] for every character [c] satisfying [p]. *)
Definition remove (p : ascii -> bool) (s : string) : string :=
  of_chars (filter (fun c => negb (p c)) (chars s)).

(** [s.partition(c)]: the text before the first [c] and the text after it,
    [None] when [c] does not occur. *)
Fixpoint partition (c : ascii) (s : string) : option (string * string) :=
  match s with
  | EmptyString => None
  | String d t =>
      if Ascii.eqb c d then Some (EmptyString, t)
      else match partition c t with
           | Some (a, b) => Some (String d a, b)
           | None => None
           end
  end.

(** [s.rpartition(c)] *)
Definition rpartition (c : ascii) (s : string) : option (string * string) :=
  match partition c (of_chars (rev (chars s))) with
  | Some (b, a) => Some (of_chars (rev (chars a)), of_chars (rev (chars b)))
  | None => None
  end.

(** [s.split(c)]: never the empty list. *)
Fixpoint split (c : ascii) (s : string) : list string :=
  match s with
  | EmptyString => [EmptyString]
  | String d t =>
      if Ascii.eqb c d then EmptyString :: split c t
      else match split c t with
           | w :: ws => String d w :: ws
           | [] => [String d EmptyString]
           end
  end.

(** [sep.join(l)] *)
Fixpoint join (sep : string) (l : list string) : string :=
  match l with
  | [] => EmptyString
  | [w] => w
  | w :: t => w ++ sep ++ join sep t
  end.

(** [s.startswith(p)] *)
Definition startswith (p s : string) : bool := String.prefix p s.

(** [re.sub(r'\s+', ' ', s)]: every maximal run of whitespace becomes one
    space. *)
Fixpoint collapse (l : list ascii) : list ascii :=
  match l with
  | [] => []
  | c :: t =>
      if isspace c then " "%char :: collapse_skip t else c :: collapse t
  end
with collapse_skip (l : list ascii) : list ascii :=
  match l with
  | [] => []
  | c :: t => if isspace c then collapse_skip t else c :: collapse t
  end.

Definition sub_spaces (s : string) : string := of_chars (collapse (chars s)).

(** [str(n)] for a non-negative integer. *)
Definition of_nat (n : nat) : string := NilZero.string_of_uint (Nat.to_uint n).

(** [len(l)] as a Python integer. *)
Definition len {A} (l : list A) : Z := Z.of_nat (length l).

End PyStr.

(** ** [urllib.parse] *)

Module Urllib.
Import PyStr.

Definition uses_relative : list string :=
  [""; "ftp"; "http"; "gopher"; "nntp"; "imap"; "wais"; "file"; "https";
   "shttp"; "mms"; "prospero"; "rtsp"; "rtspu"; "sftp"; "svn"; "svn+ssh";
   "ws"; "wss"].

Definition uses_netloc : list string :=
  [""; "ftp"; "http"; "gopher"; "nntp"; "telnet"; "imap"; "wais"; "file";
   "mms"; "https"; "shttp"; "snews"; "prospero"; "rtsp"; "rtspu"; "rsync";
   "svn"; "svn+ssh"; "sftp"; "nfs"; "git"; "git+ssh"; "ws"; "wss"].

Definition uses_params : list string :=
  [""; "ftp"; "hdl"; "prospero"; "http"; "imap"; "https"; "shttp"; "rtsp";
   "rtspu"; "sip"; "sips"; "mms"; "sftp"; "tel"].

(** [s in l] for a list of strings. *)
Definition in_list (s : string) (l : list string) : bool :=
  existsb (String.eqb s) l.

(** Membership in [scheme_chars]. *)
Definition scheme_char (c : ascii) : bool :=
  isupper c || islower c || isdigit c || mem c "+-.".

(** Membership in [_WHATWG_C0_CONTROL_OR_SPACE]: the codes 0 to 32. *)
Definition c0_control_or_space (c : ascii) : bool := (code c <=? 32)%nat.

(** Membership in [_UNSAFE_URL_BYTES_TO_REMOVE]: tab, carriage return and
    line feed. *)
Definition unsafe_url_byte (c : ascii) : bool :=
  ((code c =? 9) || (code c =? 13) || (code c =? 10))%nat.

(** The named tuple [ParseResult]. *)
Record ParseResult : Type := mkParseResult {
  scheme : string;
  netloc : string;
  path : string;
  params : string;
  query : string;
  fragment : string
}.

Section Checks.

(** Two validations inside [urlsplit] need tables this development does not
    carry: [_check_bracketed_netloc] (an [ipaddress] validation of a bracketed
    host, reached only when the netloc holds both brackets) and the NFKC
    normalisation test of [_checknetloc] (reached only for a netloc with a
    character outside ASCII). Each is a parameter that says whether the netloc
    passes; [urlsplit] raises [ValueError] when it does not. *)
Variable check_bracketed_netloc : string -> bool.
Variable checknetloc : string -> bool.

(** The scheme detection of [urlsplit]: [i = url.find(':')], then the test
    [i > 0 and url[0].isascii() and url[0].isalpha()] and the loop over
    [url[:i]]. *)
Definition split_scheme (url scheme : string) : string * string :=
  match partition ":" url with
  | Some (String c0 _ as pre, post) =>
      if isascii_alpha c0 && forallb scheme_char (chars pre)
      then (lower pre, post)
      else (scheme, url)
  | _ => (scheme, url)
  end.

Definition netloc_delim (c : ascii) : bool := mem c "/?#".

(** [_splitnetloc(url, 2)] *)
Definition _splitnetloc (url : string) : string * string :=
  let rest := chars (substring 2 (String.length url) url) in
  (of_chars (takewhile (fun c => negb (netloc_delim c)) rest),
   of_chars (dropwhile (fun c => negb (netloc_delim c)) rest)).

(** [url.split(c, 1)] when [c in url], the pair [(url, "")] otherwise. *)
Definition split1 (c : ascii) (url : string) : string * string :=
  match partition c url with
  | Some (a, b) => (a, b)
  | None => (url, "")
  end.

(** [urlsplit(url, scheme)], the [SplitResult] as a 5-tuple
    (scheme, netloc, path, query, fragment). *)
Definition urlsplit (url scheme : string)
  : result (string * string * string * string * string) :=
  let url := lstrip_by c0_control_or_space url in
  let scheme := strip_by c0_control_or_space scheme in
  let url := remove unsafe_url_byte url in
  let scheme := remove unsafe_url_byte scheme in
  let '(scheme, url) := split_scheme url scheme in
  rbind
    (if startswith "//" url then
       let '(netloc, url) := _splitnetloc url in
       if (mem "[" netloc && negb (mem "]" netloc))
          || (mem "]" netloc && negb (mem "[" netloc))
       then Raise ValueError
       else if mem "[" netloc && mem "]" netloc
               && negb (check_bracketed_netloc netloc)
       then Raise ValueError
       else Ok (netloc, url)
     else Ok ("", url))
    (fun '(netloc, url) =>
       let '(url, fragment) := split1 "#" url in
       let '(url, query) := split1 "?" url in
       if negb (netloc =? "") && negb (forallb isascii (chars netloc))
          && negb (checknetloc netloc)
       then Raise ValueError
       else Ok (scheme, netloc, url, query, fragment)).

(** [_splitparams(url)]; [urlparse] calls it only when [';' in url]. *)
Definition _splitparams (url : string) : string * string :=
  match rpartition "/" url with
  | Some (before, after) =>
      match partition ";" after with
      | Some (a, b) => (before ++ "/" ++ a, b)
      | None => (url, "")
      end
  | None => split1 ";" url
  end.

(** [urlparse(url, scheme)] *)
Definition urlparse (url scheme : string) : result ParseResult :=
  rbind (urlsplit url scheme)
    (fun '(scheme, netloc, url, query, fragment) =>
       let '(url, params) :=
         if in_list scheme uses_params && mem ";" url
         then _splitparams url else (url, "") in
       Ok (mkParseResult scheme netloc url params query fragment)).

(** [urlunsplit((scheme, netloc, url, query, fragment))] *)
Definition urlunsplit (scheme netloc url query fragment : string) : string :=
  let url :=
    if negb (netloc =? "")
       || (negb (scheme =? "") && in_list scheme uses_netloc
           && negb (startswith "//" url))
    then "//" ++ netloc
         ++ (if negb (url =? "") && negb (startswith "/" url)
             then "/" ++ url else url)
    else url in
  let url := if negb (scheme =? "") then scheme ++ ":" ++ url else url in
  let url := if negb (query =? "") then url ++ "?" ++ query else url in
  if negb (fragment =? "") then url ++ "#" ++ fragment else url.

(** [urlunparse(components)] *)
Definition urlunparse (p : ParseResult) : string :=
  let url :=
    if negb (params p =? "") then path p ++ ";" ++ params p else path p in
  urlunsplit (scheme p) (netloc p) url (query p) (fragment p).

(** [segments[1:-1] = filter(None, segments[1:-1])] *)
Definition filter_middle (segments : list string) : list string :=
  match segments with
  | first :: (_ :: _) as rest =>
      ((first :: filter (fun s => negb (s =? "")) (removelast rest))
         ++ [last rest ""])%list
  | _ => segments
  end.

(** The loop of [urljoin] over [segments], building [resolved_path]. *)
Definition resolve_segments (segments : list string) : list string :=
  fold_left
    (fun resolved_path seg =>
       if seg =? ".." then removelast resolved_path
       else if seg =? "." then resolved_path
       else (resolved_path ++ [seg])%list)
    segments [].

(** [urljoin(base, url)] *)
Definition urljoin (base url : string) : result string :=
  if base =? "" then Ok url
  else if url =? "" then Ok base
  else
    rbind (urlparse base "") (fun b =>
    rbind (urlparse url (scheme b)) (fun u =>
      if negb (scheme u =? scheme b) || negb (in_list (scheme u) uses_relative)
      then Ok url
      else if in_list (scheme u) uses_netloc && negb (netloc u =? "")
      then Ok (urlunparse u)
      else
        let netloc' :=
          if in_list (scheme u) uses_netloc then netloc b else netloc u in
        if (path u =? "") && (params u =? "") then
          let query' := if query u =? "" then query b else query u in
          Ok (urlunparse (mkParseResult (scheme u) netloc' (path b) (params b)
                            query' (fragment u)))
        else
          let base_parts := split "/" (path b) in
          let base_parts :=
            if last base_parts "" =? "" then base_parts
            else removelast base_parts in
          let segments :=
            if startswith "/" (path u) then split "/" (path u)
            else filter_middle (base_parts ++ split "/" (path u))%list in
          let resolved_path := resolve_segments segments in
          let resolved_path :=
            if (last segments "" =? ".") || (last segments "" =? "..")
            then (resolved_path ++ [""])%list else resolved_path in
          let joined := join "/" resolved_path in
          Ok (urlunparse (mkParseResult (scheme u) netloc'
                            (if joined =? "" then "/" else joined)
                            (params u) (query u) (fragment u))))).

(** [urlparse(url).netloc] *)
Definition netloc_of (url : string) : result string :=
  rbind (urlparse url "") (fun p => Ok (netloc p)).

End Checks.

(** [ParseResult.hostname] computed from a netloc ([_hostinfo], then the
    lower-casing that leaves an IPv6 zone untouched); [None] for an empty
    host. *)
Definition hostname (netloc : string) : option string :=
  let hostinfo :=
    match rpartition "@" netloc with
    | Some (_, h) => h
    | None => netloc
    end in
  let host :=
    match partition "[" hostinfo with
    | Some (_, bracketed) => fst (split1 "]" bracketed)
    | None => fst (split1 ":" hostinfo)
    end in
  if host =? "" then None
  else match partition "%" host with
       | Some (h, zone) => Some (lower h ++ "%" ++ zone)
       | None => Some (lower host)
       end.

End Urllib.

(** ** The BeautifulSoup tree *)

Module Bs4.
Import PyStr.

(** The classes of string node: [NavigableString] itself, [CData], and every
    other subclass ([Comment], [Doctype], [Declaration], ...). *)
Inductive string_kind : Type := PlainText | CData | OtherString.

Inductive node : Type :=
| Tag (name : string) (attrs : list (string * string)) (contents : list node)
| NavigableString (kind : string_kind) (text : string).

(** The [BeautifulSoup] object, given by its top-level contents. *)
Definition soup : Type := list node.

(** [.descendants], in document order, the node itself first. *)
Fixpoint descendants (n : node) : list node :=
  match n with
  | Tag _ _ cs => n :: flat_map descendants cs
  | NavigableString _ _ => [n]
  end.

Definition all_nodes (s : soup) : list node := flat_map descendants s.

Definition is_tag (name : string) (n : node) : bool :=
  match n with
  | Tag nm _ _ => nm =? name
  | NavigableString _ _ => false
  end.

Fixpoint lookup {V} (key : string) (d : list (string * V)) : option V :=
  match d with
  | [] => None
  | (k, v) :: t => if k =? key then Some v else lookup key t
  end.

(** [tag.get(key)] *)
Definition get (n : node) (key : string) : option string :=
  match n with
  | Tag _ attrs _ => lookup key attrs
  | NavigableString _ _ => None
  end.

(** [tag.get(key, default)] *)
Definition get_default (n : node) (key default : string) : string :=
  match get n key with
  | Some v => v
  | None => default
  end.

Definition has_attr (key : string) (n : node) : bool :=
  match get n key with
  | Some _ => true
  | None => false
  end.

(** [soup.find_all(name)] *)
Definition find_all (name : string) (s : soup) : list node :=
  filter (is_tag name) (all_nodes s).

(** [soup.find(name)] *)
Definition find (name : string) (s : soup) : option node :=
  hd_error (find_all name s).

(** [soup.find_all(name, key=True)]: the tags that carry the attribute. *)
Definition find_all_with (name key : string) (s : soup) : list node :=
  filter (has_attr key) (find_all name s).

(** [soup.find(name, attrs={key: value})] *)
Definition find_attr (name key value : string) (s : soup) : option node :=
  hd_error
    (filter (fun n => match get n key with
                      | Some v => v =? value
                      | None => false
                      end)
       (find_all name s)).

(** [tag.string]: the single string child, looked for through single
    children. *)
Fixpoint string_of (n : node) : option string :=
  match n with
  | NavigableString _ s => Some s
  | Tag _ _ [c] => string_of c
  | Tag _ _ _ => None
  end.

(** The tree after [element.extract()] on every tag named in [names]. *)
Fixpoint extract_all (names : list string) (n : node) : list node :=
  match n with
  | Tag nm attrs cs =>
      if existsb (String.eqb nm) names then []
      else [Tag nm attrs (flat_map (extract_all names) cs)]
  | NavigableString _ _ => [n]
  end.

(** [soup.get_text(separator)]: the [NavigableString] and [CData] nodes. *)
Definition get_text (separator : string) (s : soup) : string :=
  join separator
    (flat_map (fun n => match n with
                        | NavigableString PlainText t => [t]
                        | NavigableString CData t => [t]
                        | _ => []
                        end)
       (all_nodes s)).

End Bs4.

(** ** [base64.b64encode] *)

Module Base64.

Definition alphabet : string :=
  "ABCDEFGHIJKLMNOPQRSTUVWXYZabcdefghijklmnopqrstuvwxyz0123456789+/".

Definition digit (n : N) : ascii :=
  match String.get (N.to_nat n) alphabet with
  | Some c => c
  | None => "="%char
  end.

Fixpoint encode (l : list N) : list ascii :=
  match l with
  | [] => []
  | [a] =>
      let n := (a * 65536)%N in
      [digit (n / 262144); digit ((n / 4096) mod 64); "="%char; "="%char]
  | [a; b] =>
      let n := (a * 65536 + b * 256)%N in
      [digit (n / 262144); digit ((n / 4096) mod 64);
       digit ((n / 64) mod 64); "="%char]
  | a :: b :: c :: t =>
      let n := (a * 65536 + b * 256 + c)%N in
      digit (n / 262144) :: digit ((n / 4096) mod 64)
        :: digit ((n / 64) mod 64) :: digit (n mod 64) :: encode t
  end.

(** [base64.b64encode(val.encode()).decode()] *)
Definition b64encode (val : string) : string :=
  string_of_list_ascii (encode (map N_of_ascii (list_ascii_of_string val))).

End Base64.

(** ** Values read by [json.load] and returned by the inference client *)

Inductive json : Type :=
| JNull
| JBool (b : bool)
| JNum (n : Z)
| JStr (s : string)
| JList (l : list json)
| JDict (d : list (string * json)).

(** ** The [requests] library, as far as the script sees it *)

Inductive http_method : Type := HEAD | GET.

Record request : Type := mkRequest {
  method : http_method;
  target : string;
  allow_redirects : bool;
  timeout : Z
}.

(** The subclasses of [requests.exceptions.RequestException], which is what
    the script catches. *)
Inductive RequestException : Type :=
| Timeout
| ConnectionError
| InvalidSchema
| MissingSchema
| InvalidURL
| TooManyRedirects
| OtherRequestException.

(** What [requests.head] and [requests.get] do: they return a response, raise
    a [RequestException], or let an exception of another class through (for
    a host with an empty label, as in [http://a..com/], the
    [LocationParseError] of urllib3, which is no [RequestException]). *)
Inductive http_outcome : Type :=
| Response (status_code : Z)
| Raises (e : RequestException)
| Escapes (name : string).

(** What [client.text_generation(prompt)] does: it returns a value or raises. *)
Inductive generation_outcome : Type :=
| Returns (response : json)
| Fails.

(** ** A state monad with exceptions *)

Definition M (St A : Type) : Type := St -> result A * St.

Definition ret {St A} (a : A) : M St A := fun s => (Ok a, s).

Definition raise {St A} (e : exn) : M St A := fun s => (Raise e, s).

Definition bind {St A B} (c : M St A) (k : A -> M St B) : M St B :=
  fun s =>
    match c s with
    | (Ok a, s') => k a s'
    | (Raise e, s') => (Raise e, s')
    end.

(** A pure computation that may raise. *)
Definition of_result {St A} (r : result A) : M St A := fun s => (r, s).

Declare Scope monad_scope.
Delimit Scope monad_scope with monad.
Notation "x <- c1 ;; c2" := (bind c1 (fun x => c2))
  (at level 61, c1 at next level, right associativity) : monad_scope.
Notation "c1 ;; c2" := (bind c1 (fun _ => c2))
  (at level 61, right associativity) : monad_scope.

(** [for x in l: body(x)], collecting what each turn appends. *)
Fixpoint for_each {St A B} (body : A -> M St B) (l : list A) : M St (list B) :=
  match l with
  | [] => ret []
  | x :: t =>
      (y <- body x ;; ys <- for_each body t ;; ret (y :: ys))%monad
  end.

(** [for i, x in enumerate(l): body(i, x)], counting from [i]. *)
Fixpoint for_enumerate {St A} (i : nat) (body : nat -> A -> M St unit)
  (l : list A) : M St unit :=
  match l with
  | [] => ret tt
  | x :: t => (body i x ;; for_enumerate (S i) body t)%monad
  end.

(** ** The records the script builds *)

(** [link["status"]]: an integer status code or a string. *)
Inductive status : Type :=
| SInt (code : Z)
| SStr (s : string).

Definition status_eqb (a b : status) : bool :=
  match a, b with
  | SInt x, SInt y => (x =? y)%Z
  | SStr x, SStr y => x =? y
  | _, _ => false
  end.

Record image : Type := mkImage {
  img_src : string;
  img_alt : string
}.

Record link : Type := mkLink {
  l_url : string;
  l_status : status;
  l_type : string
}.

(** The dictionary returned by [parse_html]. *)
Record parsed_data : Type := mkParsed {
  pd_meta_title : string;
  pd_meta_description : string;
  pd_headers : list (string * Z);
  pd_images : list image;
  pd_links : list link;
  pd_main_text : string
}.

(** The dictionary returned by [generate_audit_report]. *)
Record audit_report : Type := mkReport {
  url : string;
  meta_title : string;
  meta_description : string;
  headers : list (string * Z);
  image_count : Z;
  link_count : Z;
  internal_link_count : Z;
  external_link_count : Z;
  broken_link_count : Z;
  error_link_count : Z;
  main_text_length : Z
}.

(** What the Streamlit calls put on the page. *)
Inductive st_event : Type :=
| st_title (s : string)
| st_error (s : string)
| st_warning (s : string)
| st_subheader (s : string)
| st_write (s : string)
| st_json (r : audit_report)
| st_expander (label body : string)   (* with st.expander(label): st.write(body) *)
| st_markdown (s : string).

(** [uploaded_file] and what [json.load] makes of it. *)
Inductive upload : Type :=
| NoFile
| Unreadable (e : string)
| Loaded (data : json).

Definition REQUEST_TIMEOUT : Z := 10.

Definition HF_URL : string :=
  "https://api-inference.huggingface.co/models/mistralai/Mistral-7B-Instruct-v0.2".

Definition dq : string := String (ascii_of_nat 34) EmptyString.

(** ** The script *)

Section Auditor.
Import PyStr.
Local Open Scope monad_scope.

(** The outside world: what an HTTP request and a text-generation call
    answer, and how they change the world. *)
Variable World : Type.
Variable http : World -> request -> http_outcome * World.
Variable text_generation :
  World -> string -> string -> string -> generation_outcome * World.

(** [BeautifulSoup(page_html, "html.parser")] and [json.dumps(report,
    indent=4)]. *)
Variable BeautifulSoup : string -> Bs4.soup.
Variable json_dumps : audit_report -> string.

(** The two validations [urllib.parse] delegates (see [Urllib]). *)
Variable check_bracketed_netloc : string -> bool.
Variable checknetloc : string -> bool.

(** [os.environ.get("HF_API_TOKEN")], present. *)
Variable HF_API_TOKEN : string.

Definition urljoin : string -> string -> result string :=
  Urllib.urljoin check_bracketed_netloc checknetloc.

(** [urllib.parse.urlparse(u).netloc] *)
Definition netloc : string -> result string :=
  Urllib.netloc_of check_bracketed_netloc checknetloc.

(** The network side of the state: the world and the requests sent so far,
    oldest first. *)
Record net : Type := mkNet {
  world : World;
  requests_log : list request
}.

Definition send (r : request) : M net http_outcome :=
  fun s =>
    let '(o, w) := http (world s) r in
    (Ok o, mkNet w (requests_log s ++ [r])%list).

(** [requests.head(url, allow_redirects=..., timeout=...)] *)
Definition requests_head (u : string) (redirects : bool) (t : Z)
  : M net http_outcome :=
  send (mkRequest HEAD u redirects t).

(** [requests.get(url, timeout=...)]; [allow_redirects] defaults to [True]. *)
Definition requests_get (u : string) (t : Z) : M net http_outcome :=
  send (mkRequest GET u true t).

(** *** [get_base_url_from_html] *)

(** Lines 48-51: the base taken from the first anchor that has an href. *)
Definition base_from_first_link (soup : Bs4.soup) : result string :=
  match hd_error (Bs4.find_all_with "a" "href" soup) with
  | Some first_link =>
      rbind (netloc (Bs4.get_default first_link "href" "")) (fun n =>
        if negb (n =? "")
        then urljoin (Bs4.get_default first_link "href" "") "/"
        else Ok "")
  | None => Ok ""
  end.

Definition get_base_url_from_html (page_html : string) : result string :=
  let soup := BeautifulSoup page_html in
  match Bs4.find "base" soup with
  | Some base_tag =>
      if negb (Bs4.get_default base_tag "href" "" =? "")
      then Ok (Bs4.get_default base_tag "href" "")
      else base_from_first_link soup
  | None => base_from_first_link soup
  end.

(** *** [parse_html] *)

(** Lines 71-77: the probe of one link. The [except] clause catches a
    [RequestException] and nothing else. *)
Definition probe (full_href : string) : M net status :=
  r <- requests_head full_href true REQUEST_TIMEOUT ;;
  match r with
  | Raises _ => ret (SStr "Error")
  | Escapes name => raise (LibraryError name)
  | Response head_code =>
      if (head_code >=? 400)%Z then
        r' <- requests_get full_href REQUEST_TIMEOUT ;;
        match r' with
        | Raises _ => ret (SStr "Error")
        | Escapes name => raise (LibraryError name)
        | Response get_code => ret (SInt get_code)
        end
      else ret (SInt head_code)
  end.

(** Line 78. *)
Definition link_type (base_url full_href : string) : result string :=
  rbind (netloc full_href) (fun n =>
  rbind (netloc base_url) (fun b =>
    Ok (if n =? b then "internal" else "external"))).

(** Lines 69-79: the body of the loop over the anchors. *)
Definition check_link (base_url href : string) : M net link :=
  full_href <- of_result (urljoin base_url href) ;;
  status_code <- probe full_href ;;
  ty <- of_result (link_type base_url full_href) ;;
  ret (mkLink full_href status_code ty).

(** Lines 63-66: the body of the loop over the images. *)
Definition read_image (base_url : string) (img : Bs4.node) : result image :=
  let src := Bs4.get_default img "src" "" in
  let alt := strip (Bs4.get_default img "alt" "") in
  rbind (urljoin base_url src) (fun full_src =>
    Ok (mkImage full_src
          (strip (Bs4.get_default img "alt" "No alt text provided")))).

(** The href of every anchor of [soup.find_all("a", href=True)]. *)
Definition hrefs (soup : Bs4.soup) : list string :=
  map (fun a => Bs4.get_default a "href" "") (Bs4.find_all_with "a" "href" soup).

Definition parse_html (page_html base_url : string) : M net parsed_data :=
  let soup := BeautifulSoup page_html in
  let meta_title :=
    match Bs4.find "title" soup with
    | Some title =>
        match Bs4.string_of title with
        | Some s => if negb (s =? "") then strip s else ""
        | None => ""
        end
    | None => ""
    end in
  let meta_description :=
    match Bs4.find_attr "meta" "name" "description" soup with
    | Some meta_desc_tag => strip (Bs4.get_default meta_desc_tag "content" "")
    | None => ""
    end in
  let headers :=
    map (fun level =>
           ("h" ++ of_nat level, len (Bs4.find_all ("h" ++ of_nat level) soup)))
      (seq 1 6) in
  images <- of_result (rmap (read_image base_url) (Bs4.find_all "img" soup)) ;;
  links <- for_each (check_link base_url) (hrefs soup) ;;
  let soup := flat_map (Bs4.extract_all ["script"; "style"]) soup in
  let main_text := Bs4.get_text " " soup in
  let main_text := strip (sub_spaces main_text) in
  ret (mkParsed meta_title meta_description headers images links main_text).

(** *** [generate_audit_report] *)

Definition is_internal (l : link) : bool := l_type l =? "internal".
Definition is_external (l : link) : bool := l_type l =? "external".
(** [link["status"] != 200 and link["status"] != "Error"] *)
Definition is_broken (l : link) : bool :=
  negb (status_eqb (l_status l) (SInt 200))
  && negb (status_eqb (l_status l) (SStr "Error")).
(** [link["status"] == "Error"] *)
Definition is_error (l : link) : bool := status_eqb (l_status l) (SStr "Error").

Definition generate_audit_report (url : string) (parsed_data : parsed_data)
  : audit_report :=
  {| url := url;
     meta_title := pd_meta_title parsed_data;
     meta_description := pd_meta_description parsed_data;
     headers := pd_headers parsed_data;
     image_count := len (pd_images parsed_data);
     link_count := len (pd_links parsed_data);
     internal_link_count := len (filter is_internal (pd_links parsed_data));
     external_link_count := len (filter is_external (pd_links parsed_data));
     broken_link_count := len (filter is_broken (pd_links parsed_data));
     error_link_count := len (filter is_error (pd_links parsed_data));
     main_text_length := Z.of_nat (String.length (pd_main_text parsed_data)) |}.

(** *** [send_to_mistral] *)

Definition mistral_prompt (report : audit_report) : string :=
  "You are an SEO expert. Analyze the following SEO audit report and provide recommendations for improvement:"
  ++ nl ++ nl ++ json_dumps report.

(** What the [try] block makes of the value [client.text_generation]
    returned. An exception raised while the value is inspected (a subscript or
    a [strip] on the wrong kind of value, [in] on a value that is no
    container) is caught by [except Exception] like any other. *)
Definition read_generation (response : json) : string :=
  match response with
  | JStr s => strip s
  | JList (JDict d :: _) =>
      match Bs4.lookup "generated_text" d with
      | Some (JStr s) => strip s
      | Some _ => "Error connecting to Mistral."
      | None => "Failed to parse Mistral response."
      end
  | JList (JStr s :: _) =>
      match String.index 0 "generated_text" s with
      | Some _ => "Error connecting to Mistral."
      | None => "Failed to parse Mistral response."
      end
  | JList (JList l :: _) =>
      if existsb (fun x => match x with
                           | JStr s => s =? "generated_text"
                           | _ => false
                           end) l
      then "Error connecting to Mistral."
      else "Failed to parse Mistral response."
  | JList (_ :: _) => "Error connecting to Mistral."
  | _ => "Failed to parse Mistral response."
  end.

Definition send_to_mistral (report : audit_report) (hf_url hf_api_token : string)
  : M net string :=
  fun s =>
    let prompt := mistral_prompt report in
    let '(o, w) := text_generation (world s) hf_url hf_api_token prompt in
    (Ok match o with
        | Returns response => read_generation response
        | Fails => "Error connecting to Mistral."
        end,
     mkNet w (requests_log s)).

(** *** [create_download_link] *)

Definition create_download_link (val filename : string) : string :=
  let b64 := Base64.b64encode val in
  "<a href=" ++ dq ++ "data:file/txt;base64," ++ b64 ++ dq
  ++ " download=" ++ dq ++ filename ++ dq ++ ">Download Report</a>".

(** *** The Streamlit body *)

(** The state of one run of the script: the network side, the page built so
    far (oldest element first) and the binding of the variable
    [download_link], absent until its first assignment. *)
Record app : Type := mkApp {
  net_state : net;
  page : list st_event;
  download_link : option string
}.

Definition st (e : st_event) : M app unit :=
  fun a => (Ok tt, mkApp (net_state a) (page a ++ [e])%list (download_link a)).

(** [st.stop()] *)
Definition st_stop {A} : M app A := raise StopException.

Definition on_net {A} (c : M net A) : M app A :=
  fun a =>
    let '(r, n) := c (net_state a) in
    (r, mkApp n (page a) (download_link a)).

Definition assign_download_link (v : string) : M app unit :=
  fun a => (Ok tt, mkApp (net_state a) (page a) (Some v)).

Definition read_download_link : M app string :=
  fun a =>
    match download_link a with
    | Some v => (Ok v, a)
    | None => (Raise NameError, a)
    end.

(** [isinstance(article, dict) and "page_html" in article] *)
Definition has_page_html (article : json) : bool :=
  match article with
  | JDict d =>
      match Bs4.lookup "page_html" d with
      | Some _ => true
      | None => false
      end
  | _ => false
  end.

(** [article["page_html"]], handed to the parser: markup that is not a string
    is taken to be rejected with a [TypeError]. *)
Definition page_html_of (article : json) : result string :=
  match article with
  | JDict d =>
      match Bs4.lookup "page_html" d with
      | Some (JStr html) => Ok html
      | Some _ => Raise TypeError
      | None => Raise KeyError
      end
  | _ => Raise TypeError
  end.

Definition report_text (base_url : string) (report : audit_report) : string :=
  "URL: " ++ base_url ++ nl ++ nl ++ "Audit Report:" ++ nl ++ json_dumps report.

Definition report_filename (i : nat) : string :=
  "audit_report_" ++ of_nat (i + 1) ++ ".txt".

(** Lines 142-159: one turn of the loop over [valid_articles]. *)
Definition audit_article (i : nat) (article : json) : M app unit :=
  st (st_write ("### Article " ++ of_nat (i + 1))) ;;
  html <- of_result (page_html_of article) ;;
  base_url <- of_result (get_base_url_from_html html) ;;
  parsed_data <- on_net (parse_html html base_url) ;;
  let report := generate_audit_report base_url parsed_data in
  st (st_json report) ;;
  enhanced_report <- on_net (send_to_mistral report HF_URL HF_API_TOKEN) ;;
  if negb (enhanced_report =? "") then
    st (st_expander "Enhanced Analysis" enhanced_report) ;;
    assign_download_link
      (create_download_link
         (report_text base_url report ++ nl ++ nl ++ "Enhanced Analysis:" ++ nl
          ++ enhanced_report)
         (report_filename i)) ;;
    download_link <- read_download_link ;;
    st (st_markdown download_link)
  else
    st (st_warning "Failed to retrieve enhanced analysis.") ;;
    let download_download_link :=
      create_download_link (report_text base_url report) (report_filename i) in
    download_link <- read_download_link ;;
    st (st_markdown download_link).

(** Lines 124-137: the choice of [valid_articles]. *)
Definition select_valid_articles (data : json) : M app (list json) :=
  match data with
  | JList l =>
      let valid_articles := filter has_page_html l in
      match valid_articles with
      | [] =>
          st (st_error "Uploaded JSON file does not contain any valid articles with a 'page_html' field.") ;;
          st_stop
      | _ :: _ => ret valid_articles
      end
  | JDict _ =>
      if negb (has_page_html data) then
        st (st_error "Uploaded JSON file does not contain a 'page_html' field.") ;;
        st_stop
      else ret [data]
  | _ =>
      st (st_error "Uploaded JSON file must be a list or a dictionary.") ;;
      st_stop
  end.

(** Lines 113-162. *)
Definition streamlit_app (uploaded_file : upload) : M app unit :=
  st (st_title "SEO Audit Tool") ;;
  match uploaded_file with
  | NoFile => st (st_warning "Please upload a JSON file to continue.")
  | Unreadable e => st (st_error ("Error reading JSON file: " ++ e)) ;; st_stop
  | Loaded data =>
      valid_articles <- select_valid_articles data ;;
      st (st_subheader "Audit Reports") ;;
      for_enumerate 0 audit_article valid_articles
  end.

(** *** What a run leaves on the page *)

(** The reports shown with [st.json], oldest first. *)
Definition reports_on (p : list st_event) : list audit_report :=
  flat_map (fun e => match e with st_json r => [r] | _ => [] end) p.

(** The failure indicators shown with [st.error]. *)
Definition failures_on (p : list st_event) : list string :=
  flat_map (fun e => match e with st_error m => [m] | _ => [] end) p.

(** The download links published with [st.markdown]. *)
Definition downloads_on (p : list st_event) : list string :=
  flat_map (fun e => match e with st_markdown m => [m] | _ => [] end) p.

(** The HEAD requests of a log. *)
Definition head_requests (log : list request) : list request :=
  filter (fun r => match method r with HEAD => true | GET => false end) log.

(** The HEAD request the script sends for a link. *)
Definition head_of (full_href : string) : request :=
  mkRequest HEAD full_href true REQUEST_TIMEOUT.

(** The GET request the script falls back to. *)
Definition get_of (full_href : string) : request :=
  mkRequest GET full_href true REQUEST_TIMEOUT.

(** Lines 143-148 on one article: from the network state [n] the article
    yields the report [r] and the enrichment text [e], leaving [n']. *)
Definition audited (article : json) (n : net) (r : audit_report) (e : string)
  (n' : net) : Prop :=
  exists html base_url parsed n1,
    page_html_of article = Ok html
    /\ get_base_url_from_html html = Ok base_url
    /\ parse_html html base_url n = (Ok parsed, n1)
    /\ r = generate_audit_report base_url parsed
    /\ send_to_mistral r HF_URL HF_API_TOKEN n1 = (Ok e, n').

(** *** The policies of the specification, in its own words *)

(** Section 4.4: broken means an HTTP code of 400 or more. *)
Definition spec_broken (l : link) : bool :=
  match l_status l with
  | SInt c => (400 <=? c)%Z
  | SStr _ => false
  end.

(** Section 4.3: internal means the resolved host equals the base host,
    compared without regard to case. *)
Definition spec_same_host (full_href base_url : string) : bool :=
  match netloc full_href, netloc base_url with
  | Ok n, Ok b =>
      match Urllib.hostname n, Urllib.hostname b with
      | Some h, Some g => h =? g
      | _, _ => false
      end
  | _, _ => false
  end.

(** Section 4.1: an explicit base declaration, else the first anchor
    reference that is itself absolute, cut to scheme, host and a slash, else
    the empty string. *)
Definition spec_resolveBase (soup : Bs4.soup) : string :=
  match Bs4.find_all_with "base" "href" soup with
  | base_tag :: _ => Bs4.get_default base_tag "href" ""
  | [] =>
      let absolute href :=
        match Urllib.urlparse check_bracketed_netloc checknetloc href "" with
        | Ok p => negb (Urllib.netloc p =? "")
        | Raise _ => false
        end in
      match filter absolute (hrefs soup) with
      | href :: _ =>
          match Urllib.urlparse check_bracketed_netloc checknetloc href "" with
          | Ok p => Urllib.scheme p ++ "://" ++ Urllib.netloc p ++ "/"
          | Raise _ => ""
          end
      | [] => ""
      end
  end.

End Auditor.

(** ** A concrete world and concrete documents *)

Module Example.
Import PyStr.

(** A scripted world: the outcomes of the next HTTP requests and of the next
    text-generation calls, in order. Once the HTTP script is used up, a URL
    with an http or https scheme answers 200 and any other URL makes
    [requests] raise [MissingSchema]; once the generation script is used up,
    the endpoint returns a short advice. *)
Record world : Type := mkWorld {
  http_script : list http_outcome;
  generation_script : list generation_outcome
}.

Definition http (w : world) (r : request) : http_outcome * world :=
  match http_script w with
  | o :: t => (o, mkWorld t (generation_script w))
  | [] =>
      (if startswith "http://" (target r) || startswith "https://" (target r)
       then Response 200 else Raises MissingSchema, w)
  end.

Definition text_generation (w : world) (model token prompt : string)
  : generation_outcome * world :=
  match generation_script w with
  | o :: t => (o, mkWorld (http_script w) t)
  | [] => (Returns (JStr "Add a meta description."), w)
  end.

(** No URL of the examples has a bracket or a character outside ASCII. *)
Definition check_bracketed_netloc (n : string) : bool := true.
Definition checknetloc (n : string) : bool := true.

Definition HF_API_TOKEN : string := "hf_token".

(** [json.dumps(report, indent=4)] for reports whose strings hold printable
    ASCII, line feeds, carriage returns and tabs. *)
Definition escape_char (c : ascii) : string :=
  if (code c =? 34)%nat then "\" ++ dq
  else if (code c =? 92)%nat then "\\"
  else if (code c =? 10)%nat then "\n"
  else if (code c =? 13)%nat then "\r"
  else if (code c =? 9)%nat then "\t"
  else String c EmptyString.

Definition json_str (s : string) : string :=
  dq ++ String.concat "" (map escape_char (chars s)) ++ dq.

Definition json_int (z : Z) : string := NilZero.string_of_int (Z.to_int z).

Definition json_member (indent key value : string) : string :=
  indent ++ json_str key ++ ": " ++ value.

Definition json_dumps (r : audit_report) : string :=
  let i1 := "    " in
  let i2 := "        " in
  let headers_text :=
    match headers r with
    | [] => "{}"
    | hs =>
        "{" ++ nl
        ++ join ("," ++ nl)
             (map (fun kv => json_member i2 (fst kv) (json_int (snd kv))) hs)
        ++ nl ++ i1 ++ "}"
    end in
  "{" ++ nl
  ++ join ("," ++ nl)
       [json_member i1 "url" (json_str (url r));
        json_member i1 "meta_title" (json_str (meta_title r));
        json_member i1 "meta_description" (json_str (meta_description r));
        json_member i1 "headers" headers_text;
        json_member i1 "image_count" (json_int (image_count r));
        json_member i1 "link_count" (json_int (link_count r));
        json_member i1 "internal_link_count" (json_int (internal_link_count r));
        json_member i1 "external_link_count" (json_int (external_link_count r));
        json_member i1 "broken_link_count" (json_int (broken_link_count r));
        json_member i1 "error_link_count" (json_int (error_link_count r));
        json_member i1 "main_text_length" (json_int (main_text_length r))]
  ++ nl ++ "}".

(** Markup is written with [attr] so that no literal holds a quote. *)
Definition attr (key value : string) : string :=
  " " ++ key ++ "=" ++ dq ++ value ++ dq.

Definition text (s : string) : Bs4.node := Bs4.NavigableString Bs4.PlainText s.

(** The concrete scenario of the specification, and the tree the parser
    builds for it. *)
Definition scenario_markup : string :=
  "<html><head><title>Hi</title></head><body><a" ++ attr "href" "/a"
  ++ ">A</a><a" ++ attr "href" "http://ext.com/b" ++ ">B</a><img"
  ++ attr "src" "/c.png" ++ "></body></html>".

Definition scenario_soup : Bs4.soup :=
  [Bs4.Tag "html" []
     [Bs4.Tag "head" [] [Bs4.Tag "title" [] [text "Hi"]];
      Bs4.Tag "body" []
        [Bs4.Tag "a" [("href", "/a")] [text "A"];
         Bs4.Tag "a" [("href", "http://ext.com/b")] [text "B"];
         Bs4.Tag "img" [("src", "/c.png")] []]]].

(** One relative anchor and no base element. *)
Definition relative_markup : string :=
  "<a" ++ attr "href" "/about" ++ ">About</a>".
Definition relative_soup : Bs4.soup :=
  [Bs4.Tag "a" [("href", "/about")] [text "About"]].

(** A relative anchor followed by an absolute one. *)
Definition two_anchor_markup : string :=
  "<a" ++ attr "href" "/rel" ++ ">r</a><a" ++ attr "href" "http://x.com/p"
  ++ ">x</a>".
Definition two_anchor_soup : Bs4.soup :=
  [Bs4.Tag "a" [("href", "/rel")] [text "r"];
   Bs4.Tag "a" [("href", "http://x.com/p")] [text "x"]].

(** The same href on two anchors. *)
Definition twice_markup : string :=
  "<a" ++ attr "href" "http://ext.com/b" ++ ">one</a><a"
  ++ attr "href" "http://ext.com/b" ++ ">two</a>".
Definition twice_soup : Bs4.soup :=
  [Bs4.Tag "a" [("href", "http://ext.com/b")] [text "one"];
   Bs4.Tag "a" [("href", "http://ext.com/b")] [text "two"]].

(** A base element whose host differs from the anchor's host by case only. *)
Definition mixed_case_markup : string :=
  "<base" ++ attr "href" "http://Example.com/" ++ "><a"
  ++ attr "href" "http://example.com/a" ++ ">a</a>".
Definition mixed_case_soup : Bs4.soup :=
  [Bs4.Tag "base" [("href", "http://Example.com/")] [];
   Bs4.Tag "a" [("href", "http://example.com/a")] [text "a"]].

(** An image with an empty alt attribute next to one with none. *)
Definition alt_markup : string :=
  "<img" ++ attr "src" "/e.png" ++ attr "alt" "" ++ "><img"
  ++ attr "src" "/n.png" ++ ">".
Definition alt_soup : Bs4.soup :=
  [Bs4.Tag "img" [("src", "/e.png"); ("alt", "")] [];
   Bs4.Tag "img" [("src", "/n.png")] []].

(** A first anchor whose scheme [urllib] does not resolve relatively. *)
Definition git_markup : string :=
  "<a" ++ attr "href" "git://github.com/x.git" ++ ">clone</a>".
Definition git_soup : Bs4.soup :=
  [Bs4.Tag "a" [("href", "git://github.com/x.git")] [text "clone"]].

(** An anchor whose network location has an unmatched bracket. *)
Definition bracket_markup : string :=
  "<a" ++ attr "href" "//[" ++ ">x</a>".
Definition bracket_soup : Bs4.soup :=
  [Bs4.Tag "a" [("href", "//[")] [text "x"]].

(** The parser on these documents; any other markup is taken as one text
    node. *)
Definition BeautifulSoup (page_html : string) : Bs4.soup :=
  match
    Bs4.lookup page_html
      [(scenario_markup, scenario_soup);
       (relative_markup, relative_soup);
       (two_anchor_markup, two_anchor_soup);
       (twice_markup, twice_soup);
       (mixed_case_markup, mixed_case_soup);
       (alt_markup, alt_soup);
       (git_markup, git_soup);
       (bracket_markup, bracket_soup)]
  with
  | Some s => s
  | None => [text page_html]
  end.

Definition article (page_html : string) : json :=
  JDict [("url", JStr "http://site.com/"); ("page_html", JStr page_html)].

(** Three uploaded documents, the second one without a [page_html] field. *)
Definition batch : json :=
  JList [article scenario_markup;
         JDict [("url", JStr "http://site.com/2")];
         article twice_markup].

Definition fresh_net (w : world) : net world := mkNet world w [].
Definition fresh_app (w : world) : app world := mkApp world (fresh_net w) [] None.
Definition quiet : world := mkWorld [] [].

(** The script and its functions in this world. *)
Definition parse_html :=
  parse_html world http BeautifulSoup check_bracketed_netloc checknetloc.
Definition get_base_url_from_html :=
  get_base_url_from_html BeautifulSoup check_bracketed_netloc checknetloc.
Definition streamlit_app :=
  streamlit_app world http text_generation BeautifulSoup json_dumps
    check_bracketed_netloc checknetloc HF_API_TOKEN.
Definition check_link :=
  check_link world http check_bracketed_netloc checknetloc.
Definition spec_same_host :=
  spec_same_host check_bracketed_netloc checknetloc.
Definition spec_resolveBase :=
  spec_resolveBase check_bracketed_netloc checknetloc.

End Example.

From Stdlib Require Import NArith.

(** ** Further observations on the script *)

(** [link["status"] == 200] *)
Definition is_live (l : link) : bool := status_eqb (l_status l) (SInt 200).

(** The requests of one probe, as a block of the log: the HEAD request
    alone, which leaves the status Error or a code below 400, or the HEAD
    request followed by the GET request. *)
Definition probe_block (k : link) (b : list request) : Prop :=
  (b = [head_of (l_url k)]
   /\ (l_status k = SStr "Error"
       \/ exists c, l_status k = SInt c /\ (c < 400)%Z))
  \/ b = [head_of (l_url k); get_of (l_url k)].

(** No whitespace at either end of the text. *)
Definition trimmed (s : string) : Prop :=
  match PyStr.chars s with
  | [] => True
  | c :: _ =>
      PyStr.isspace c = false
      /\ PyStr.isspace (last (PyStr.chars s) c) = false
  end.

(** Every whitespace character is a single space with no whitespace after
    it. *)
Fixpoint single_spaced (l : list ascii) : Prop :=
  match l with
  | [] => True
  | c :: t =>
      (PyStr.isspace c = true ->
       c = " "%char
       /\ match t with
          | d :: _ => PyStr.isspace d = false
          | [] => True
          end)
      /\ single_spaced t
  end.

(** The articles an upload offers to the loop: the entries of a list that
    are dictionaries with a [page_html] key, or the dictionary itself when
    it has the key. *)
Definition valid_articles_of (data : json) : list json :=
  match data with
  | JList l => filter has_page_html l
  | JDict _ => if has_page_html data then [data] else []
  | _ => []
  end.

(** ** Reading a download link back *)

Module Base64Decode.

Fixpoint index_of (c : ascii) (l : list ascii) (i : N) : N :=
  match l with
  | [] => 0%N
  | d :: t => if Ascii.eqb c d then i else index_of c t (i + 1)%N
  end.

(** The six bits a character of the alphabet stands for; the padding
    character stands for none. *)
Definition value (c : ascii) : N :=
  index_of c (list_ascii_of_string Base64.alphabet) 0%N.

Fixpoint decode (l : list ascii) : list N :=
  match l with
  | c1 :: c2 :: c3 :: c4 :: t =>
      let n :=
        (value c1 * 262144 + value c2 * 4096 + value c3 * 64 + value c4)%N in
      if Ascii.eqb c3 "="%char then [(n / 65536)%N]
      else if Ascii.eqb c4 "="%char
      then [(n / 65536)%N; ((n / 256) mod 256)%N]
      else (n / 65536)%N :: ((n / 256) mod 256)%N :: (n mod 256)%N
             :: decode t
  | _ => []
  end.

(** [base64.b64decode(text).decode()] *)
Definition b64decode (text : string) : string :=
  string_of_list_ascii (map ascii_of_N (decode (list_ascii_of_string text))).

End Base64Decode.

(** The payload of a download link: what follows the thirty characters up to
    [base64,] and precedes the next quote. *)
Definition payload_of (download_link : string) : string :=
  PyStr.of_chars
    (PyStr.takewhile (fun c => negb (Ascii.eqb c (ascii_of_nat 34)))
       (skipn 30 (PyStr.chars download_link))).

(** ** Two more documents *)

Module Sample.
Import PyStr.

(** A page with a title, a description, a script, headings of two levels,
    text with runs of whitespace, an image with an alt text and a link. *)
Definition page_markup : string :=
  "<html><head><title> Hi  there </title><meta"
  ++ Example.attr "name" "description" ++ Example.attr "content" " About  us "
  ++ "><script>var x = 1;</script></head><body><h1>A</h1><h2>B</h2><h2>C</h2>"
  ++ "<p>Some   text" ++ nl ++ " here</p><img" ++ Example.attr "src" "/a.png"
  ++ Example.attr "alt" " logo " ++ "><a" ++ Example.attr "href" "/gone"
  ++ ">x</a></body></html>".

Definition page_soup : Bs4.soup :=
  [Bs4.Tag "html" []
     [Bs4.Tag "head" []
        [Bs4.Tag "title" [] [Example.text " Hi  there "];
         Bs4.Tag "meta" [("name", "description"); ("content", " About  us ")] [];
         Bs4.Tag "script" []
           [Bs4.NavigableString Bs4.OtherString "var x = 1;"]];
      Bs4.Tag "body" []
        [Bs4.Tag "h1" [] [Example.text "A"];
         Bs4.Tag "h2" [] [Example.text "B"];
         Bs4.Tag "h2" [] [Example.text "C"];
         Bs4.Tag "p" [] [Example.text ("Some   text" ++ nl ++ " here")];
         Bs4.Tag "img" [("src", "/a.png"); ("alt", " logo ")] [];
         Bs4.Tag "a" [("href", "/gone")] [Example.text "x"]]]].

(** An image whose src has an unmatched bracket, before a link. *)
Definition bad_image_markup : string :=
  "<img" ++ Example.attr "src" "//[" ++ "><a"
  ++ Example.attr "href" "http://a.com/" ++ ">a</a>".

Definition bad_image_soup : Bs4.soup :=
  [Bs4.Tag "img" [("src", "//[")] [];
   Bs4.Tag "a" [("href", "http://a.com/")] [Example.text "a"]].

Definition BeautifulSoup (page_html : string) : Bs4.soup :=
  if page_html =? page_markup then page_soup
  else if page_html =? bad_image_markup then bad_image_soup
  else Example.BeautifulSoup page_html.

Definition parse_html :=
  parse_html Example.world Example.http BeautifulSoup
    Example.check_bracketed_netloc Example.checknetloc.

(** A world whose next HEAD request is answered 404 and whose next GET
    request is answered 200. *)
Definition head_refused : Example.world :=
  Example.mkWorld [Response 404; Response 200] [].

End Sample.

(** ** Two documents with a link that ends the audit *)

Module Malformed.
Import PyStr.

(** A relative anchor, then an anchor whose network location has an
    unmatched bracket. *)
Definition unmatched_markup : string :=
  "<a" ++ Example.attr "href" "/x" ++ ">x</a><a" ++ Example.attr "href" "//["
  ++ ">y</a>".
Definition unmatched_soup : Bs4.soup :=
  [Bs4.Tag "a" [("href", "/x")] [Example.text "x"];
   Bs4.Tag "a" [("href", "//[")] [Example.text "y"]].

(** An anchor whose host has an empty label. *)
Definition empty_label_markup : string :=
  "<a" ++ Example.attr "href" "http://a..com/" ++ ">a</a>".
Definition empty_label_soup : Bs4.soup :=
  [Bs4.Tag "a" [("href", "http://a..com/")] [Example.text "a"]].

Definition BeautifulSoup (page_html : string) : Bs4.soup :=
  if page_html =? unmatched_markup then unmatched_soup
  else if page_html =? empty_label_markup then empty_label_soup
  else Example.BeautifulSoup page_html.

Definition get_base_url_from_html :=
  get_base_url_from_html BeautifulSoup Example.check_bracketed_netloc
    Example.checknetloc.
Definition parse_html :=
  parse_html Example.world Example.http BeautifulSoup
    Example.check_bracketed_netloc Example.checknetloc.
Definition streamlit_app :=
  streamlit_app Example.world Example.http Example.text_generation
    BeautifulSoup Example.json_dumps Example.check_bracketed_netloc
    Example.checknetloc Example.HF_API_TOKEN.



End Malformed.

(** ** The middle of [urlsplit] *)

(** [urlsplit] after the scheme has been split off: the netloc and its
    validation, the fragment and the query. *)
Definition split_core (check_bracketed_netloc checknetloc : string -> bool)
  (scheme url : string)
  : result (string * string * string * string * string) :=
  rbind
    (if PyStr.startswith "//" url then
       let '(netloc, url) := Urllib._splitnetloc url in
       if (PyStr.mem "[" netloc && negb (PyStr.mem "]" netloc))
          || (PyStr.mem "]" netloc && negb (PyStr.mem "[" netloc))
       then Raise ValueError
       else if PyStr.mem "[" netloc && PyStr.mem "]" netloc
               && negb (check_bracketed_netloc netloc)
       then Raise ValueError
       else Ok (netloc, url)
     else Ok ("", url))
    (fun '(netloc, url) =>
       let '(url, fragment) := Urllib.split1 "#" url in
       let '(url, query) := Urllib.split1 "?" url in
       if negb (netloc =? "") && negb (forallb PyStr.isascii (PyStr.chars netloc))
          && negb (checknetloc netloc)
       then Raise ValueError
       else Ok (scheme, netloc, url, query, fragment)).

(** What [urlunsplit] puts before the two slashes. *)
Definition scheme_prefix (scheme : string) : string :=
  if scheme =? "" then "" else scheme ++ ":".

(** A character that may stand in a netloc as [urlsplit] returns it: not a
    delimiter and not one of the bytes [urlsplit] removes. *)
Definition netloc_char (c : ascii) : bool :=
  negb (Urllib.netloc_delim c) && negb (Urllib.unsafe_url_byte c).

(** The text is empty or starts with one of the delimiters that end a
    netloc. *)
Definition starts_with_delim (s : string) : bool :=
  match s with
  | EmptyString => true
  | String c _ => Urllib.netloc_delim c
  end.

(** ** Properties *)

Section Properties.
Import PyStr.

Variable World : Type.
Variable http : World -> request -> http_outcome * World.
Variable text_generation :
  World -> string -> string -> string -> generation_outcome * World.
Variable BeautifulSoup : string -> Bs4.soup.
Variable json_dumps : audit_report -> string.
Variable check_bracketed_netloc : string -> bool.
Variable checknetloc : string -> bool.
Variable HF_API_TOKEN : string.

Local Abbreviation net := (net World).
Local Abbreviation app := (app World).
Local Abbreviation mkNet := (mkNet World).
Local Abbreviation mkApp := (mkApp World).
Local Abbreviation urljoin := (urljoin check_bracketed_netloc checknetloc).
Local Abbreviation netloc := (netloc check_bracketed_netloc checknetloc).
Local Abbreviation link_type := (link_type check_bracketed_netloc checknetloc).
Local Abbreviation read_image := (read_image check_bracketed_netloc checknetloc).
Local Abbreviation probe := (probe World http).
Local Abbreviation check_link :=
  (check_link World http check_bracketed_netloc checknetloc).
Local Abbreviation parse_html :=
  (parse_html World http BeautifulSoup check_bracketed_netloc checknetloc).
Local Abbreviation get_base_url_from_html :=
  (get_base_url_from_html BeautifulSoup check_bracketed_netloc checknetloc).
Local Abbreviation base_from_first_link :=
  (base_from_first_link check_bracketed_netloc checknetloc).
Local Abbreviation send_to_mistral :=
  (send_to_mistral World text_generation json_dumps).
Local Abbreviation audit_article :=
  (audit_article World http text_generation BeautifulSoup json_dumps
     check_bracketed_netloc checknetloc HF_API_TOKEN).
Local Abbreviation streamlit_app :=
  (streamlit_app World http text_generation BeautifulSoup json_dumps
     check_bracketed_netloc checknetloc HF_API_TOKEN).
Local Abbreviation audited :=
  (audited World http text_generation BeautifulSoup json_dumps
     check_bracketed_netloc checknetloc HF_API_TOKEN).
Local Abbreviation spec_same_host :=
  (spec_same_host check_bracketed_netloc checknetloc).
Local Abbreviation spec_resolveBase :=
  (spec_resolveBase check_bracketed_netloc checknetloc).

(** *** The monad *)

Lemma bind_ok {St A B} (c : M St A) (k : A -> M St B) s b s' :
  bind c k s = (Ok b, s') ->
  exists a s1, c s = (Ok a, s1) /\ k a s1 = (Ok b, s').
Proof.
  unfold bind. destruct (c s) as [[a | e] s1]; intro H.
  - exists a, s1. split; [reflexivity | exact H].
  - discriminate H.
Qed.

Lemma bind_step {St A B} (c : M St A) (k : A -> M St B) s a s1 :
  c s = (Ok a, s1) -> bind c k s = k a s1.
Proof. unfold bind. intros ->. reflexivity. Qed.

Lemma of_result_ok {St A} (r : result A) (s s' : St) a :
  of_result r s = (Ok a, s') -> r = Ok a /\ s' = s.
Proof. unfold of_result. intro H. inversion H. split; reflexivity. Qed.

(** A loop that returns has run its body on every element, in order. *)
Lemma for_each_ok {St A B} (body : A -> M St B) (P : A -> B -> Prop) :
  (forall x s y s', body x s = (Ok y, s') -> P x y) ->
  forall l s ys s', for_each body l s = (Ok ys, s') -> Forall2 P l ys.
Proof.
  intros Hbody. induction l as [| x t IH]; intros s ys s' H; cbn in H.
  - inversion H. constructor.
  - apply bind_ok in H. destruct H as (y & s1 & Hy & H).
    apply bind_ok in H. destruct H as (ys' & s2 & Hys & H).
    inversion H; subst. constructor; eauto.
Qed.

(** *** Counting *)



Lemma broken_not_error (l : link) : is_broken l = true -> is_error l = false.
Proof.
  unfold is_broken, is_error. intro H.
  apply andb_true_iff in H. destruct H as [_ H].
  now apply negb_true_iff in H.
Qed.

(** *** The link records of [parse_html] *)


Lemma probe_eq full_href (s : net) :
  probe full_href s =
  match http (world World s) (head_of full_href) with
  | (Raises _, w1) =>
      (Ok (SStr "Error"),
       mkNet w1 (requests_log World s ++ [head_of full_href])%list)
  | (Escapes x, w1) =>
      (Raise (LibraryError x),
       mkNet w1 (requests_log World s ++ [head_of full_href])%list)
  | (Response c, w1) =>
      if (c <? 400)%Z then
        (Ok (SInt c), mkNet w1 (requests_log World s ++ [head_of full_href])%list)
      else
        match http w1 (get_of full_href) with
        | (Raises _, w2) =>
            (Ok (SStr "Error"),
             mkNet w2
               (requests_log World s ++ [head_of full_href; get_of full_href])%list)
        | (Escapes x, w2) =>
            (Raise (LibraryError x),
             mkNet w2
               (requests_log World s ++ [head_of full_href; get_of full_href])%list)
        | (Response c', w2) =>
            (Ok (SInt c'),
             mkNet w2
               (requests_log World s ++ [head_of full_href; get_of full_href])%list)
        end
  end.
Proof.
  unfold probe, requests_head, requests_get, send, bind, ret, raise, head_of,
    get_of.
  cbn.
  destruct (http (world World s) _) as [[c | e | x] w1]; try reflexivity.
  rewrite Z.geb_leb, Z.ltb_antisym.
  destruct (400 <=? c)%Z; cbn; [| reflexivity].
  destruct (http w1 _) as [[c' | e' | x'] w2]; rewrite <- app_assoc; reflexivity.
Qed.

(** Whether the probe returns or raises, what it adds to the log holds
    exactly one HEAD request. *)
Lemma probe_log full_href (s s' : net) r :
  probe full_href s = (r, s') ->
  exists sent,
    requests_log World s' = (requests_log World s ++ sent)%list
    /\ head_requests sent = [head_of full_href].
Proof.
  rewrite probe_eq.
  destruct (http (world World s) _) as [[c | e | x] w1].
  - destruct (c <? 400)%Z.
    + intro H. inversion H. eexists. split; reflexivity.
    + destruct (http w1 _) as [[c' | e' | x'] w2];
        intro H; inversion H; eexists; split; reflexivity.
  - intro H. inversion H. eexists. split; reflexivity.
  - intro H. inversion H. eexists. split; reflexivity.
Qed.

(** The probe raises nothing but what [requests] let through. *)
Lemma probe_raises full_href (s s' : net) e :
  probe full_href s = (Raise e, s') -> exists x, e = LibraryError x.
Proof.
  rewrite probe_eq.
  destruct (http (world World s) _) as [[c | e0 | x] w1].
  - destruct (c <? 400)%Z; [discriminate |].
    destruct (http w1 _) as [[c' | e' | x'] w2];
      intro H; inversion H; eauto.
  - discriminate.
  - intro H. inversion H. eauto.
Qed.

Lemma check_link_ok base_url href (s s' : net) l :
  check_link base_url href s = (Ok l, s') ->
  exists full_href st ty,
    urljoin base_url href = Ok full_href
    /\ probe full_href s = (Ok st, s')
    /\ link_type base_url full_href = Ok ty
    /\ l = mkLink full_href st ty.
Proof.
  unfold check_link. intro H.
  apply bind_ok in H. destruct H as (full & s1 & Hfull & H).
  apply of_result_ok in Hfull. destruct Hfull as [Hfull ->].
  apply bind_ok in H. destruct H as (st & s2 & Hst & H).
  apply bind_ok in H. destruct H as (ty & s3 & Hty & H).
  apply of_result_ok in Hty. destruct Hty as [Hty ->].
  inversion H; subst. exists full, st, ty. auto.
Qed.

(** The loop body after [urljoin]: the probe, then the classification. *)
Lemma check_link_eq base_url href full_href (s : net) :
  urljoin base_url href = Ok full_href ->
  check_link base_url href s =
  match probe full_href s with
  | (Ok st, s') =>
      match link_type base_url full_href with
      | Ok ty => (Ok (mkLink full_href st ty), s')
      | Raise e => (Raise e, s')
      end
  | (Raise e, s') => (Raise e, s')
  end.
Proof.
  intro Hfull. unfold check_link, bind, of_result, ret. rewrite Hfull.
  destruct (probe full_href s) as [[st | e] s']; [| reflexivity].
  destruct (link_type base_url full_href); reflexivity.
Qed.

Lemma parse_html_ok page_html base_url (s s' : net) pd :
  parse_html page_html base_url s = (Ok pd, s') ->
  rmap (read_image base_url) (Bs4.find_all "img" (BeautifulSoup page_html))
  = Ok (pd_images pd)
  /\ for_each (check_link base_url) (hrefs (BeautifulSoup page_html)) s
     = (Ok (pd_links pd), s').
Proof.
  unfold parse_html. intro H.
  apply bind_ok in H. destruct H as (images & s1 & Him & H).
  apply of_result_ok in Him. destruct Him as [Him ->].
  apply bind_ok in H. destruct H as (links & s2 & Hl & H).
  inversion H; subst. cbn. auto.
Qed.


(** What the loop over the anchors adds to the log: one HEAD request per link
    record, in order. *)
Lemma links_probed base_url l : forall (s s' : net) links,
  for_each (check_link base_url) l s = (Ok links, s') ->
  exists sent,
    requests_log World s' = (requests_log World s ++ sent)%list
    /\ head_requests sent = map (fun k => head_of (l_url k)) links.
Proof.
  induction l as [| href t IH]; intros s s' links H; cbn in H.
  - inversion H; subst. exists []. rewrite app_nil_r. auto.
  - apply bind_ok in H. destruct H as (k & s1 & Hk & H).
    apply bind_ok in H. destruct H as (ks & s2 & Hks & H).
    inversion H; subst. clear H.
    apply check_link_ok in Hk. destruct Hk as (full & st & ty & _ & Hp & _ & ->).
    destruct (probe_log _ _ _ _ Hp) as (sent1 & Hlog1 & Hh1).
    destruct (IH _ _ _ Hks) as (sent2 & Hlog2 & Hh2).
    exists (sent1 ++ sent2)%list. split.
    + rewrite Hlog2, Hlog1, app_assoc. reflexivity.
    + unfold head_requests in *. rewrite filter_app, Hh1, Hh2. reflexivity.
Qed.

(** The status of a link record is an integer or the string Error. *)
Lemma links_status base_url l (s s' : net) links :
  for_each (check_link base_url) l s = (Ok links, s') ->
  Forall (fun k => (exists c, l_status k = SInt c)
                   \/ l_status k = SStr "Error") links.
Proof.
  intro H.
  assert (F : Forall2 (fun (_ : string) k =>
                         (exists c, l_status k = SInt c)
                         \/ l_status k = SStr "Error") l links).
  { revert H. apply for_each_ok. clear. intros href s k s' H.
    apply check_link_ok in H. destruct H as (full & st & ty & _ & Hp & _ & ->).
    rewrite probe_eq in Hp. cbn.
    destruct (http (world World s) _) as [[c | e | x] w1].
    - destruct (c <? 400)%Z.
      + inversion Hp. eauto.
      + destruct (http w1 _) as [[c' | e' | x'] w2]; inversion Hp; eauto.
    - inversion Hp. auto.
    - discriminate Hp. }
  clear H. induction F; constructor; auto.
Qed.

(** *** The claims *)


(** C10. Every anchor occurrence that carries an href yields its own link
    record, in document order, whether or not another anchor has the same
    href: the records are as many as the occurrences, each record holds the
    resolved href of its occurrence, each record had its own HEAD request, and
    every link count of the report counts records, not distinct URLs. *)
Theorem C10_one_record_per_anchor page_html base_url u (s s' : net) pd :
  parse_html page_html base_url s = (Ok pd, s') ->
  let anchors := Bs4.find_all_with "a" "href" (BeautifulSoup page_html) in
  let r := generate_audit_report u pd in
  Forall2 (fun a k => urljoin base_url (Bs4.get_default a "href" "")
                      = Ok (l_url k)) anchors (pd_links pd)
  /\ link_count r = len anchors
  /\ (exists sent,
        requests_log World s' = (requests_log World s ++ sent)%list
        /\ head_requests sent = map (fun k => head_of (l_url k)) (pd_links pd))
  /\ internal_link_count r = len (filter is_internal (pd_links pd))
  /\ external_link_count r = len (filter is_external (pd_links pd))
  /\ broken_link_count r = len (filter is_broken (pd_links pd))
  /\ error_link_count r = len (filter is_error (pd_links pd)).
Proof.
  intro H. apply parse_html_ok in H. destruct H as [_ H].
  assert (F : Forall2 (fun href k => urljoin base_url href = Ok (l_url k))
                (hrefs (BeautifulSoup page_html)) (pd_links pd)).
  { revert H. apply for_each_ok. clear. intros href s k s' H.
    apply check_link_ok in H. destruct H as (full & st & ty & Hf & _ & _ & ->).
    exact Hf. }
  cbv zeta. repeat split.
  - unfold hrefs in F. remember (pd_links pd) as links eqn:E. clear E H.
    remember (Bs4.find_all_with "a" "href" (BeautifulSoup page_html)) as l.
    clear Heql. revert links F.
    induction l as [| a t IH]; intros links F; inversion F; subst;
      constructor; auto.
  - cbn. unfold len. f_equal. apply Forall2_length in F.
    unfold hrefs in F. rewrite length_map in F. symmetry. exact F.
  - eapply links_probed. exact H.
Qed.

(** C2, as the code has it. A link record is counted as broken exactly when
    its status is an integer other than 200, and as errored exactly when its
    status is the string Error; no record is counted as both. An integer
    status of 300 to 399 is therefore counted as broken, like every other
    integer status except 200. *)
Theorem C2_broken_is_any_code_but_200 :
  (forall u c t,
     is_broken (mkLink u (SInt c) t) = negb (c =? 200)%Z
     /\ is_error (mkLink u (SInt c) t) = false)
  /\ (forall u t,
        is_broken (mkLink u (SStr "Error") t) = false
        /\ is_error (mkLink u (SStr "Error") t) = true)
  /\ (forall l, is_broken l && is_error l = false)
  /\ (forall u pd,
        broken_link_count (generate_audit_report u pd)
        = len (filter is_broken (pd_links pd))
        /\ error_link_count (generate_audit_report u pd)
           = len (filter is_error (pd_links pd))).
Proof.
  repeat split.
  - unfold is_broken. cbn. now rewrite andb_true_r.
  - intro l. destruct (is_broken l) eqn:H; [| reflexivity].
    now rewrite (broken_not_error l H).
Qed.

Lemma urljoin_empty_base href : urljoin "" href = Ok href.
Proof. reflexivity. Qed.

Lemma netloc_empty : netloc "" = Ok "".
Proof. reflexivity. Qed.

(** C4, as the code has it. With the empty string as base URL, the record
    built for an anchor keeps the href as it is written, and it is internal
    exactly when the href has no network location (a relative reference, a
    bare fragment, a mailto address) and external exactly when it has one. *)
Theorem C4_empty_base href (s s' : net) k :
  check_link "" href s = (Ok k, s') ->
  l_url k = href
  /\ exists n,
       netloc href = Ok n
       /\ (l_type k = "internal" <-> n = "")
       /\ (l_type k = "external" <-> n <> "").
Proof.
  intro H. apply check_link_ok in H.
  destruct H as (full & st & ty & Hfull & _ & Hty & ->).
  rewrite urljoin_empty_base in Hfull. inversion Hfull; subst full. clear Hfull.
  split; [reflexivity |].
  unfold link_type in Hty. rewrite netloc_empty in Hty.
  destruct (netloc href) as [n |]; cbn [rbind] in Hty; [| discriminate].
  inversion Hty; subst ty. exists n. split; [reflexivity |]. cbn [l_type].
  destruct (String.eqb_spec n "") as [E | E];
    split; split; intro F; congruence.
Qed.

Lemma rmap_ok {A B} (f : A -> result B) l : forall ys,
  rmap f l = Ok ys -> Forall2 (fun x y => f x = Ok y) l ys.
Proof.
  induction l as [| x t IH]; cbn; intros ys H.
  - inversion H. constructor.
  - destruct (f x) as [y |] eqn:Hy; [| discriminate]. cbn in H.
    destruct (rmap f t) as [ys' |]; [| discriminate]. cbn in H.
    inversion H; subst. constructor; auto.
Qed.

Lemma read_image_eq base_url img :
  read_image base_url img
  = rbind (urljoin base_url (Bs4.get_default img "src" "")) (fun full_src =>
      Ok (mkImage full_src
            match Bs4.get img "alt" with
            | Some v => strip v
            | None => "No alt text provided"
            end)).
Proof.
  unfold read_image, Bs4.get_default.
  destruct (Bs4.get img "alt"); reflexivity.
Qed.


(** C6, as the code has it. A link record is internal exactly when the
    network location of its resolved URL and the network location of the base
    URL are the same string, and external otherwise. The comparison is on the
    whole network location (user information, host and port) and is
    sensitive to case; no subdomain is folded. *)
Theorem C6_internal_iff_same_netloc base_url href (s s' : net) k :
  check_link base_url href s = (Ok k, s') ->
  urljoin base_url href = Ok (l_url k)
  /\ exists n b,
       netloc (l_url k) = Ok n
       /\ netloc base_url = Ok b
       /\ (l_type k = "internal" <-> n = b)
       /\ (l_type k = "external" <-> n <> b).
Proof.
  intro H. apply check_link_ok in H.
  destruct H as (full & st & ty & Hfull & _ & Hty & ->).
  cbn [l_url l_type]. split; [exact Hfull |].
  unfold link_type in Hty.
  destruct (netloc full) as [n |]; cbn [rbind] in Hty; [| discriminate].
  destruct (netloc base_url) as [b |]; cbn [rbind] in Hty; [| discriminate].
  inversion Hty; subst ty. exists n, b.
  split; [reflexivity |]. split; [reflexivity |].
  destruct (String.eqb_spec n b) as [E | E];
    split; split; intro F; congruence.
Qed.

(** [urljoin(href, "/")] on an href with a network location and a scheme that
    [urllib] resolves relatively: the scheme, the network location and a
    slash. *)
Lemma urljoin_root href p :
  Urllib.urlparse check_bracketed_netloc checknetloc href "" = Ok p ->
  Urllib.netloc p <> "" ->
  In (Urllib.scheme p) Urllib.uses_relative ->
  urljoin href "/"
  = Ok ((if Urllib.scheme p =? "" then "" else Urllib.scheme p ++ ":")
        ++ "//" ++ Urllib.netloc p ++ "/").
Proof.
  intros Hp Hn Hs.
  unfold urljoin, Urllib.urljoin.
  destruct (href =? "") eqn:Hh.
  - apply String.eqb_eq in Hh. subst href.
    cbv in Hp. inversion Hp; subst. now destruct Hn.
  - change ("/" =? "") with false. cbv iota. rewrite Hp. cbn [rbind].
    destruct p as [sch nloc pa par q f]. cbn [Urllib.scheme Urllib.netloc] in *.
    destruct nloc as [| c nloc]; [now destruct Hn |].
    clear Hp Hn Hh.
    cbn [In Urllib.uses_relative] in Hs.
    repeat (destruct Hs as [Hs | Hs]; [subst sch; reflexivity |]).
    destruct Hs.
Qed.

(** C7, as the code has it. Base-URL discovery returns the href of the first
    base element when that href is not empty. Otherwise it looks at the first
    anchor that carries an href, and at no other anchor: with no such anchor,
    or when that href has no network location, it returns the empty string;
    when that href has a network location and a scheme that [urllib] resolves
    relatively (http, https, ftp, ...), it returns the scheme, the network
    location and a slash. *)
Theorem C7_base_discovery page_html :
  let soup := BeautifulSoup page_html in
  let declared :=
    match Bs4.find "base" soup with
    | Some base_tag => Bs4.get_default base_tag "href" ""
    | None => ""
    end in
  (declared <> "" -> get_base_url_from_html page_html = Ok declared)
  /\ (declared = "" ->
      match Bs4.find_all_with "a" "href" soup with
      | [] => get_base_url_from_html page_html = Ok ""
      | first_link :: _ =>
          forall p,
            Urllib.urlparse check_bracketed_netloc checknetloc
              (Bs4.get_default first_link "href" "") "" = Ok p ->
            (Urllib.netloc p = "" -> get_base_url_from_html page_html = Ok "")
            /\ (Urllib.netloc p <> "" ->
                In (Urllib.scheme p) Urllib.uses_relative ->
                get_base_url_from_html page_html
                = Ok ((if Urllib.scheme p =? "" then ""
                       else Urllib.scheme p ++ ":")
                      ++ "//" ++ Urllib.netloc p ++ "/"))
      end).
Proof.
  cbv zeta. unfold get_base_url_from_html.
  assert (fallback :
    match Bs4.find_all_with "a" "href" (BeautifulSoup page_html) with
    | [] => base_from_first_link (BeautifulSoup page_html) = Ok ""
    | first_link :: _ =>
        forall p,
          Urllib.urlparse check_bracketed_netloc checknetloc
            (Bs4.get_default first_link "href" "") "" = Ok p ->
          (Urllib.netloc p = ""
           -> base_from_first_link (BeautifulSoup page_html) = Ok "")
          /\ (Urllib.netloc p <> "" ->
              In (Urllib.scheme p) Urllib.uses_relative ->
              base_from_first_link (BeautifulSoup page_html)
              = Ok ((if Urllib.scheme p =? "" then ""
                     else Urllib.scheme p ++ ":")
                    ++ "//" ++ Urllib.netloc p ++ "/"))
    end).
  { unfold base_from_first_link.
    destruct (Bs4.find_all_with "a" "href" (BeautifulSoup page_html))
      as [| first_link rest]; cbn [hd_error]; [reflexivity |].
    intros p Hp. unfold netloc, Urllib.netloc_of. rewrite Hp. cbn [rbind].
    split.
    - intros ->. reflexivity.
    - intros Hn Hs. destruct (String.eqb_spec (Urllib.netloc p) "") as [E | _];
        [now destruct Hn |].
      cbn [negb]. now apply urljoin_root. }
  destruct (Bs4.find "base" (BeautifulSoup page_html)) as [base_tag |].
  - split.
    + intro Hd. destruct (String.eqb_spec (Bs4.get_default base_tag "href" "") "");
        [now destruct Hd | reflexivity].
    + intros ->. exact fallback.
  - split; [intro Hd; now destruct Hd | intros _; exact fallback].
Qed.

(** *** The batch *)


Lemma bind_st e {B} (k : unit -> M app B) n p d :
  bind (st World e) k (mkApp n p d) = k tt (mkApp n (p ++ [e])%list d).
Proof. reflexivity. Qed.

Lemma bind_of_result {St A B} (r : result A) (k : A -> M St B) s x :
  r = Ok x -> bind (of_result r) k s = k x s.
Proof. intros ->. reflexivity. Qed.

Lemma bind_on_net {A B} (c : M net A) (k : A -> M app B) n p d x n' :
  c n = (Ok x, n') ->
  bind (on_net World c) k (mkApp n p d) = k x (mkApp n' p d).
Proof.
  intro H. unfold bind, on_net. cbn [net_state page download_link].
  rewrite H. reflexivity.
Qed.

Lemma reports_on_snoc p e :
  reports_on (p ++ [e])
  = (reports_on p ++ match e with st_json r => [r] | _ => [] end)%list.
Proof.
  unfold reports_on. rewrite flat_map_app. cbn [flat_map].
  now rewrite app_nil_r.
Qed.

Lemma failures_on_snoc p e :
  failures_on (p ++ [e])
  = (failures_on p ++ match e with st_error m => [m] | _ => [] end)%list.
Proof.
  unfold failures_on. rewrite flat_map_app. cbn [flat_map].
  now rewrite app_nil_r.
Qed.




(** *** Further properties of [generate_audit_report] and [parse_html] *)

Lemma filter_three_length {A} (p q r : A -> bool) (l : list A) :
  (forall x, (p x = true /\ q x = false /\ r x = false)
             \/ (p x = false /\ q x = true /\ r x = false)
             \/ (p x = false /\ q x = false /\ r x = true)) ->
  (length l
   = length (filter p l) + length (filter q l) + length (filter r l))%nat.
Proof.
  intro H. induction l as [| x t IH]; cbn; [reflexivity |].
  destruct (H x) as [(-> & -> & ->) | [(-> & -> & ->) | (-> & -> & ->)]];
    cbn; lia.
Qed.

(** Every link record is counted once: as live (status 200), as broken or as
    errored. The link count is the sum of the three, whatever the statuses
    are. *)
Theorem links_live_broken_or_error u (pd : parsed_data) :
  let r := generate_audit_report u pd in
  (link_count r
   = len (filter is_live (pd_links pd))
     + broken_link_count r + error_link_count r)%Z.
Proof.
  cbn. unfold len.
  rewrite (filter_three_length is_live is_broken is_error (pd_links pd)).
  - lia.
  - intro k. unfold is_live, is_broken, is_error.
    destruct (l_status k) as [c | s]; cbn.
    + destruct (c =? 200)%Z; cbn; auto.
    + destruct (s =? "Error"); cbn; auto.
Qed.

(** The headers of a parsed document are the six levels h1 to h6, in that
    order, each with the number of elements of that name. *)
Theorem headers_six_levels page_html base_url (s s' : net) pd :
  parse_html page_html base_url s = (Ok pd, s') ->
  let soup := BeautifulSoup page_html in
  pd_headers pd
  = [("h1", len (Bs4.find_all "h1" soup)); ("h2", len (Bs4.find_all "h2" soup));
     ("h3", len (Bs4.find_all "h3" soup)); ("h4", len (Bs4.find_all "h4" soup));
     ("h5", len (Bs4.find_all "h5" soup)); ("h6", len (Bs4.find_all "h6" soup))]
  /\ headers (generate_audit_report base_url pd) = pd_headers pd
  /\ Forall (fun kv => (0 <= snd kv)%Z) (pd_headers pd).
Proof.
  unfold parse_html. intro H.
  apply bind_ok in H. destruct H as (images & s1 & _ & H).
  apply bind_ok in H. destruct H as (links & s2 & _ & H).
  inversion H; subst. clear H. cbn [pd_headers].
  split; [reflexivity |]. split; [reflexivity |].
  repeat constructor; apply Nat2Z.is_nonneg.
Qed.

Lemma rmap_length {A B} (f : A -> result B) l ys :
  rmap f l = Ok ys -> length ys = length l.
Proof.
  intro H. apply rmap_ok in H. symmetry. eapply Forall2_length, H.
Qed.

(** The image count of the report is the number of img elements of the
    document, one record each, in document order. *)
Theorem image_count_is_img_elements page_html base_url (s s' : net) pd :
  parse_html page_html base_url s = (Ok pd, s') ->
  image_count (generate_audit_report base_url pd)
  = len (Bs4.find_all "img" (BeautifulSoup page_html)).
Proof.
  intro H. apply parse_html_ok in H. destruct H as [H _].
  apply rmap_length in H. cbn. unfold len. now rewrite H.
Qed.

(** *** Which exceptions the URL functions raise *)

Lemma urlsplit_raises url scheme e :
  Urllib.urlsplit check_bracketed_netloc checknetloc url scheme = Raise e ->
  e = ValueError.
Proof.
  unfold Urllib.urlsplit.
  destruct (Urllib.split_scheme _ _) as [sch u].
  destruct (startswith "//" u).
  - destruct (Urllib._splitnetloc u) as [n rest].
    destruct (_ || _); cbn [rbind]; [congruence |].
    destruct (_ && _); cbn [rbind]; [congruence |].
    destruct (Urllib.split1 "#" rest) as [u1 f].
    destruct (Urllib.split1 "?" u1) as [u2 q].
    destruct (_ && _); congruence.
  - cbn [rbind].
    destruct (Urllib.split1 "#" u) as [u1 f].
    destruct (Urllib.split1 "?" u1) as [u2 q].
    destruct (_ && _); congruence.
Qed.

Lemma urlparse_raises url scheme e :
  Urllib.urlparse check_bracketed_netloc checknetloc url scheme = Raise e ->
  e = ValueError.
Proof.
  unfold Urllib.urlparse.
  destruct (Urllib.urlsplit _ _ url scheme) as [[[[[sch n] u] q] f] | e0] eqn:E;
    cbn [rbind].
  - destruct (_ && _); [destruct (Urllib._splitparams u) |]; discriminate.
  - intro H. inversion H; subst. eapply urlsplit_raises, E.
Qed.

Lemma urljoin_raises base url e : urljoin base url = Raise e -> e = ValueError.
Proof.
  unfold urljoin, Urllib.urljoin.
  destruct (base =? ""); [discriminate |].
  destruct (url =? ""); [discriminate |].
  destruct (Urllib.urlparse _ _ base "") as [b | e0] eqn:Eb; cbn [rbind].
  - destruct (Urllib.urlparse _ _ url _) as [u | e1] eqn:Eu; cbn [rbind].
    + repeat match goal with
             | |- context [if ?c then _ else _] => destruct c
             end; discriminate.
    + intro H. inversion H; subst. eapply urlparse_raises, Eu.
  - intro H. inversion H; subst. eapply urlparse_raises, Eb.
Qed.

Lemma netloc_raises url e : netloc url = Raise e -> e = ValueError.
Proof.
  unfold netloc, Urllib.netloc_of.
  destruct (Urllib.urlparse _ _ url "") as [p | e0] eqn:E; cbn [rbind].
  - discriminate.
  - intro H. inversion H; subst. eapply urlparse_raises, E.
Qed.

Lemma link_type_raises base_url full_href e :
  link_type base_url full_href = Raise e -> e = ValueError.
Proof.
  unfold link_type.
  destruct (netloc full_href) as [n | e0] eqn:En; cbn [rbind].
  - destruct (netloc base_url) as [b | e1] eqn:Eb; cbn [rbind].
    + discriminate.
    + intro H. inversion H; subst. eapply netloc_raises, Eb.
  - intro H. inversion H; subst. eapply netloc_raises, En.
Qed.

Lemma rmap_raises {A B} (f : A -> result B) (P : exn -> Prop) l e :
  (forall x e', f x = Raise e' -> P e') -> rmap f l = Raise e -> P e.
Proof.
  intro Hf. induction l as [| x t IH]; cbn; [discriminate |].
  destruct (f x) as [y | e0] eqn:E; cbn.
  - destruct (rmap f t) as [ys | e1]; cbn; [discriminate |].
    intro H. inversion H; subst. now apply IH.
  - intro H. inversion H; subst. eapply Hf, E.
Qed.

Lemma read_image_raises base_url img e :
  read_image base_url img = Raise e -> e = ValueError.
Proof.
  rewrite read_image_eq.
  destruct (urljoin base_url _) as [full | e0] eqn:E; cbn; [discriminate |].
  intro H. inversion H; subst. eapply urljoin_raises, E.
Qed.

(** What the body of the loop over the anchors raises: the [ValueError] of
    [urllib], or what [requests] let through. *)
Lemma check_link_raises base_url href (s s' : net) e :
  check_link base_url href s = (Raise e, s') ->
  e = ValueError \/ exists x, e = LibraryError x.
Proof.
  destruct (urljoin base_url href) as [full | e0] eqn:Ej.
  - rewrite (check_link_eq _ _ _ s Ej).
    destruct (probe full s) as [[st | e1] s1] eqn:Ep.
    + destruct (link_type base_url full) as [ty | e1] eqn:Et.
      * discriminate.
      * intro H. inversion H; subst. left. eapply link_type_raises, Et.
    + intro H. inversion H; subst. right. eapply probe_raises, Ep.
  - unfold check_link, bind, of_result. rewrite Ej.
    intro H. inversion H; subst. left. eapply urljoin_raises, Ej.
Qed.


Lemma for_each_raises {St A B} (body : A -> M St B) (P : exn -> Prop) :
  (forall x s e s', body x s = (Raise e, s') -> P e) ->
  forall l s e s', for_each body l s = (Raise e, s') -> P e.
Proof.
  intro Hb. induction l as [| x t IH]; intros s e s' H; cbn in H.
  - discriminate.
  - unfold bind in H.
    destruct (body x s) as [[y | e0] s1] eqn:E.
    + destruct (for_each body t s1) as [[ys | e1] s2] eqn:E'.
      * discriminate.
      * inversion H; subst. eapply IH, E'.
    + inversion H; subst. eapply Hb, E.
Qed.

Lemma parse_html_raises page_html base_url (s s' : net) e :
  parse_html page_html base_url s = (Raise e, s') ->
  e = ValueError \/ exists x, e = LibraryError x.
Proof.
  unfold parse_html, bind, of_result.
  destruct (rmap (read_image base_url) _) as [images | e0] eqn:Ei.
  - destruct (for_each (check_link base_url) _ s) as [[links | e1] s1] eqn:El.
    + discriminate.
    + intro H. inversion H; subst.
      eapply (for_each_raises (check_link base_url)
                (fun e => e = ValueError \/ exists x, e = LibraryError x)), El.
      intros. eapply check_link_raises; eauto.
  - intro H. inversion H; subst. left.
    eapply (rmap_raises (read_image base_url) (fun e => e = ValueError)), Ei.
    intros. eapply read_image_raises; eauto.
Qed.

Lemma get_base_url_from_html_raises page_html e :
  get_base_url_from_html page_html = Raise e -> e = ValueError.
Proof.
  assert (F : forall soup, base_from_first_link soup = Raise e
                           -> e = ValueError).
  { intro soup. unfold base_from_first_link.
    destruct (hd_error _) as [first_link |]; [| discriminate].
    destruct (netloc _) as [n | e0] eqn:En; cbn [rbind].
    - destruct (negb _); [apply urljoin_raises | discriminate].
    - intro H. inversion H; subst. eapply netloc_raises, En. }
  unfold get_base_url_from_html.
  destruct (Bs4.find "base" _) as [base_tag |]; [| apply F].
  destruct (negb _); [discriminate | apply F].
Qed.

(** An image whose src does not resolve ends [parse_html] with the
    [ValueError] before any link is probed: no request is sent. *)
Theorem bad_image_stops_before_probing page_html base_url (s : net) img e :
  In img (Bs4.find_all "img" (BeautifulSoup page_html)) ->
  urljoin base_url (Bs4.get_default img "src" "") = Raise e ->
  parse_html page_html base_url s = (Raise ValueError, s).
Proof.
  intros Hin Hj.
  assert (R : exists e', rmap (read_image base_url)
                           (Bs4.find_all "img" (BeautifulSoup page_html))
                         = Raise e').
  { induction (Bs4.find_all "img" (BeautifulSoup page_html)) as [| x t IH];
      [destruct Hin |].
    cbn. destruct Hin as [-> | Hin].
    - rewrite read_image_eq, Hj. cbn. eauto.
    - destruct (read_image base_url x) as [y | e0]; cbn; [| eauto].
      destruct (IH Hin) as (e' & ->). cbn. eauto. }
  destruct R as (e' & R).
  assert (e' = ValueError).
  { eapply (rmap_raises (read_image base_url) (fun e => e = ValueError)), R.
    intros. eapply read_image_raises; eauto. }
  subst e'. unfold parse_html, bind, of_result. rewrite R. reflexivity.
Qed.

(** *** The requests of [parse_html] *)

Lemma probe_block_of full_href (s s' : net) st ty :
  probe full_href s = (Ok st, s') ->
  exists b,
    requests_log World s' = (requests_log World s ++ b)%list
    /\ probe_block (mkLink full_href st ty) b.
Proof.
  rewrite probe_eq. unfold probe_block. cbn [l_url l_status].
  destruct (http (world World s) _) as [[c | e | x] w1].
  - destruct (c <? 400)%Z eqn:Hc.
    + intro H. inversion H; subst. eexists. split; [reflexivity |].
      left. split; [reflexivity |]. right. exists c.
      split; [reflexivity | now apply Z.ltb_lt].
    + destruct (http w1 _) as [[c' | e' | x'] w2]; [| | discriminate];
        intro H; inversion H; subst;
        eexists; (split; [reflexivity | right; reflexivity]).
  - intro H. inversion H; subst. eexists. split; [reflexivity |].
    left. split; [reflexivity |]. left. reflexivity.
  - discriminate.
Qed.

Lemma links_blocks base_url l : forall (s s' : net) links,
  for_each (check_link base_url) l s = (Ok links, s') ->
  exists blocks,
    Forall2 probe_block links blocks
    /\ requests_log World s' = (requests_log World s ++ concat blocks)%list.
Proof.
  induction l as [| href t IH]; intros s s' links H; cbn in H.
  - inversion H; subst. exists []. split; [constructor |].
    cbn. now rewrite app_nil_r.
  - apply bind_ok in H. destruct H as (k & s1 & Hk & H).
    apply bind_ok in H. destruct H as (ks & s2 & Hks & H).
    inversion H; subst. clear H.
    apply check_link_ok in Hk. destruct Hk as (full & st & ty & _ & Hp & _ & ->).
    destruct (probe_block_of full s s1 st ty Hp) as (b & Hlog1 & Hb).
    destruct (IH _ _ _ Hks) as (blocks & Hbs & Hlog2).
    exists (b :: blocks). split; [constructor; assumption |].
    cbn [concat]. rewrite Hlog2, Hlog1, app_assoc. reflexivity.
Qed.

Lemma blocks_facts links blocks :
  Forall2 probe_block links blocks ->
  Forall (fun r => timeout r = REQUEST_TIMEOUT
                   /\ allow_redirects r = true
                   /\ In (target r) (map l_url links)) (concat blocks)
  /\ (length links <= length (concat blocks) <= 2 * length links)%nat.
Proof.
  induction 1 as [| k b links blocks Hb _ IH]; cbn [concat map length].
  - split; [constructor | lia].
  - destruct IH as [IHf IHl]. split.
    + apply Forall_app. split.
      * destruct Hb as [[-> _] | ->]; repeat constructor; cbn; auto.
      * eapply Forall_impl; [| exact IHf].
        cbn. intros r (Ht & Ha & Hin). auto.
    + rewrite length_app.
      destruct Hb as [[-> _] | ->]; cbn [length]; lia.
Qed.

(** What [parse_html] sends. The log grows by one block per link record, in
    the order of the records: the HEAD request for the record's URL, followed
    by the GET request for the same URL unless the status is Error or a code
    below 400. So every request has the timeout of 10 seconds, follows
    redirects and goes to the URL of a link record (an image is never
    requested), and a document with n links costs between n and 2n
    requests. *)
Theorem requests_of_parse_html page_html base_url (s s' : net) pd :
  parse_html page_html base_url s = (Ok pd, s') ->
  exists blocks,
    Forall2 probe_block (pd_links pd) blocks
    /\ requests_log World s' = (requests_log World s ++ concat blocks)%list
    /\ Forall (fun r => timeout r = 10%Z
                        /\ allow_redirects r = true
                        /\ In (target r) (map l_url (pd_links pd)))
         (concat blocks)
    /\ (length (pd_links pd) <= length (concat blocks)
        <= 2 * length (pd_links pd))%nat.
Proof.
  intro H. apply parse_html_ok in H. destruct H as [_ H].
  destruct (links_blocks _ _ _ _ _ H) as (blocks & Hb & Hlog).
  exists blocks. split; [exact Hb |]. split; [exact Hlog |].
  exact (blocks_facts _ _ Hb).
Qed.

(** *** Trimmed text *)

Lemma chars_of_chars l : chars (of_chars l) = l.
Proof. apply list_ascii_of_string_of_list_ascii. Qed.

Lemma of_chars_chars s : of_chars (chars s) = s.
Proof. apply string_of_list_ascii_of_string. Qed.

Lemma dropwhile_suffix p l : exists u, l = (u ++ dropwhile p l)%list.
Proof.
  induction l as [| c t IH]; cbn.
  - exists []. reflexivity.
  - destruct (p c).
    + destruct IH as (u & Hu). exists (c :: u). cbn. now rewrite <- Hu.
    + exists []. reflexivity.
Qed.

Lemma dropwhile_head p l c t : dropwhile p l = c :: t -> p c = false.
Proof.
  induction l as [| d l' IH]; cbn; [discriminate |].
  destruct (p d) eqn:E; [exact IH |].
  intro H. inversion H; subst. exact E.
Qed.

(** The characters of [strip_by p s]: a middle part of [s] with no [p] at
    either end. *)
Lemma strip_by_chars p s :
  exists u w,
    chars s = (u ++ chars (strip_by p s) ++ w)%list
    /\ match chars (strip_by p s) with
       | [] => True
       | c :: _ => p c = false /\ p (last (chars (strip_by p s)) c) = false
       end.
Proof.
  unfold strip_by, rstrip_by, lstrip_by. rewrite !chars_of_chars.
  destruct (dropwhile_suffix p (chars s)) as (u & Hu).
  remember (dropwhile p (chars s)) as x eqn:Ex.
  destruct (dropwhile_suffix p (rev x)) as (v & Hv).
  remember (dropwhile p (rev x)) as z eqn:Ez.
  assert (Hx : x = (rev z ++ rev v)%list).
  { rewrite <- (rev_involutive x), Hv, rev_app_distr. reflexivity. }
  exists u, (rev v). split; [now rewrite Hu at 1; rewrite Hx at 1 |].
  destruct z as [| c t]; [exact I |].
  cbn [rev]. symmetry in Ez. pose proof (dropwhile_head _ _ _ _ Ez) as Hc.
  destruct (rev t ++ [c])%list as [| c0 y] eqn:Ey.
  { destruct (rev t); discriminate. }
  rewrite <- Ey. rewrite last_last. split; [| exact Hc].
  (* the first character is the first character of [x] *)
  assert (Hx0 : exists y', x = c0 :: y').
  { rewrite Hx. cbn [rev]. rewrite Ey. cbn. eauto. }
  destruct Hx0 as (y' & Hx0). rewrite Hx0 in Ex. symmetry in Ex.
  exact (dropwhile_head _ _ _ _ Ex).
Qed.

Lemma strip_trimmed s : trimmed (strip s).
Proof.
  unfold trimmed, strip.
  destruct (strip_by_chars isspace s) as (_ & _ & _ & H). exact H.
Qed.

Lemma single_spaced_suffix u v : single_spaced (u ++ v) -> single_spaced v.
Proof.
  induction u as [| c t IH]; cbn; [auto |]. intros [_ H]. auto.
Qed.

Lemma single_spaced_prefix u v : single_spaced (u ++ v) -> single_spaced u.
Proof.
  induction u as [| c t IH]; cbn; [auto |].
  intros [Hc H]. split; [| auto].
  intro Hs. destruct (Hc Hs) as [-> Hn]. split; [reflexivity |].
  destruct t; [exact I | exact Hn].
Qed.

Lemma collapse_single_spaced l :
  single_spaced (collapse l)
  /\ single_spaced (collapse_skip l)
  /\ match collapse_skip l with
     | d :: _ => isspace d = false
     | [] => True
     end.
Proof.
  induction l as [| c t (IH1 & IH2 & IH3)]; cbn; [auto |].
  destruct (isspace c) eqn:E; cbn; rewrite ?E; repeat split; auto;
    try discriminate.
Qed.

(** The text fields of a parsed document are trimmed: the title, the
    description, the alt text of every image and the main text have no
    whitespace at either end; and in the main text every run of whitespace
    has become a single space. *)
Theorem text_fields_trimmed page_html base_url (s s' : net) pd :
  parse_html page_html base_url s = (Ok pd, s') ->
  trimmed (pd_meta_title pd)
  /\ trimmed (pd_meta_description pd)
  /\ Forall (fun im => trimmed (img_alt im)) (pd_images pd)
  /\ trimmed (pd_main_text pd)
  /\ single_spaced (chars (pd_main_text pd)).
Proof.
  intro H. pose proof (Hp0 := H).
  apply parse_html_ok in Hp0. destruct Hp0 as [Himg _]. apply rmap_ok in Himg.
  unfold parse_html in H.
  apply bind_ok in H. destruct H as (images & s1 & _ & H).
  apply bind_ok in H. destruct H as (links & s2 & _ & H).
  inversion H; subst. clear H.
  cbn [pd_meta_title pd_meta_description pd_images pd_main_text] in *.
  split; [| split; [| split; [| split]]].
  - destruct (Bs4.find "title" _) as [title |]; [| exact I].
    destruct (Bs4.string_of title) as [t |]; [| exact I].
    destruct (negb (t =? "")); [apply strip_trimmed | exact I].
  - destruct (Bs4.find_attr _ _ _ _); [apply strip_trimmed | exact I].
  - induction Himg as [| img im imgs ims Him _ IH]; constructor; [| exact IH].
    rewrite read_image_eq in Him.
    destruct (urljoin base_url _) as [full |]; [| discriminate].
    cbn in Him. inversion Him. cbn [img_alt].
    destruct (Bs4.get img "alt"); [apply strip_trimmed |].
    cbv. auto.
  - apply strip_trimmed.
  - unfold strip.
    destruct (strip_by_chars isspace
                (sub_spaces (Bs4.get_text " "
                   (flat_map (Bs4.extract_all ["script"; "style"])
                      (BeautifulSoup page_html))))) as (u & w & Hc & _).
    unfold sub_spaces in Hc at 1. rewrite chars_of_chars in Hc.
    pose proof (proj1 (collapse_single_spaced
                         (chars (Bs4.get_text " "
                            (flat_map (Bs4.extract_all ["script"; "style"])
                               (BeautifulSoup page_html)))))) as Hs.
    rewrite Hc in Hs.
    apply single_spaced_suffix in Hs. apply single_spaced_prefix in Hs.
    exact Hs.
Qed.

(** *** [send_to_mistral] *)


(** *** The Streamlit body *)

Lemma filter_idem {A} (f : A -> bool) l : filter f (filter f l) = filter f l.
Proof.
  induction l as [| x t IH]; cbn; [reflexivity |].
  destruct (f x) eqn:E; cbn; rewrite ?E, IH; reflexivity.
Qed.

(** The entries of an uploaded list that are not dictionaries with a
    [page_html] key have no effect at all: the run is the run on the list
    without them. *)
Theorem invalid_entries_ignored l (a : app) :
  streamlit_app (Loaded (JList l)) a
  = streamlit_app (Loaded (JList (filter has_page_html l))) a.
Proof.
  destruct a as [n p d]. unfold streamlit_app. rewrite !bind_st.
  unfold select_valid_articles. rewrite filter_idem. reflexivity.
Qed.

Lemma select_none data n p d :
  valid_articles_of data = [] ->
  exists msg,
    select_valid_articles World data (mkApp n p d)
    = (Raise StopException, mkApp n (p ++ [st_error msg])%list d).
Proof.
  unfold valid_articles_of, select_valid_articles.
  destruct data as [| b | z | t | l | dict].
  - intros _. eexists. reflexivity.
  - intros _. eexists. reflexivity.
  - intros _. eexists. reflexivity.
  - intros _. eexists. reflexivity.
  - intros ->. eexists. reflexivity.
  - destruct (has_page_html (JDict dict)); [discriminate |].
    intros _. eexists. reflexivity.
Qed.

Lemma select_some data n p d :
  valid_articles_of data <> [] ->
  select_valid_articles World data (mkApp n p d)
  = (Ok (valid_articles_of data), mkApp n p d).
Proof.
  unfold valid_articles_of, select_valid_articles.
  destruct data as [| b | z | t | l | dict]; try (intro H; now destruct H).
  - destruct (filter has_page_html l); [intro H; now destruct H |].
    reflexivity.
  - destruct (has_page_html (JDict dict)); [| intro H; now destruct H].
    reflexivity.
Qed.

(** An upload that offers no article (a value that is neither a list nor a
    dictionary, a list without a valid entry, a dictionary without the key)
    ends the run at once: the page gets the title and one error message,
    nothing is requested and nothing is audited. *)
Theorem upload_without_articles_stops data (a : app) :
  valid_articles_of data = [] ->
  exists msg,
    streamlit_app (Loaded data) a
    = (Raise StopException,
       mkApp (net_state World a)
         ((page World a ++ [st_title "SEO Audit Tool"]) ++ [st_error msg])%list
         (download_link World a)).
Proof.
  destruct a as [n p d]. cbn [net_state page download_link].
  intro H. unfold streamlit_app. rewrite bind_st.
  destruct (select_none data n (p ++ [st_title "SEO Audit Tool"])%list d H)
    as (msg & Hs).
  exists msg. unfold bind. rewrite Hs. reflexivity.
Qed.

Lemma bind_of_result_raise {St A B} (k : A -> M St B) s e :
  bind (of_result (Raise e)) k s = (Raise e, s).
Proof. reflexivity. Qed.

Lemma bind_on_net_raise {A B} (c : M net A) (k : A -> M app B) n p d e n' :
  c n = (Raise e, n') ->
  bind (on_net World c) k (mkApp n p d) = (Raise e, mkApp n' p d).
Proof.
  intro H. unfold bind, on_net. cbn [net_state page download_link].
  rewrite H. reflexivity.
Qed.

Lemma downloads_on_snoc p e :
  downloads_on (p ++ [e])
  = (downloads_on p ++ match e with st_markdown m => [m] | _ => [] end)%list.
Proof.
  unfold downloads_on. rewrite flat_map_app. cbn [flat_map].
  now rewrite app_nil_r.
Qed.

Lemma send_to_mistral_returns report hf_url token (n : net) :
  exists e n', send_to_mistral report hf_url token n = (Ok e, n').
Proof.
  unfold send_to_mistral.
  destruct (text_generation _ _ _ _) as [o w]. eauto.
Qed.

(** One turn of the loop, outcome by outcome. *)
Lemma audit_article_eq i article n p d :
  audit_article i article (mkApp n p d)
  = match page_html_of article with
    | Raise e =>
        (Raise e,
         mkApp n (p ++ [st_write ("### Article " ++ of_nat (i + 1))])%list d)
    | Ok html =>
        match get_base_url_from_html html with
        | Raise e =>
            (Raise e,
             mkApp n (p ++ [st_write ("### Article " ++ of_nat (i + 1))])%list
               d)
        | Ok base_url =>
            match parse_html html base_url n with
            | (Raise e, n1) =>
                (Raise e,
                 mkApp n1
                   (p ++ [st_write ("### Article " ++ of_nat (i + 1))])%list d)
            | (Ok pd, n1) =>
                match send_to_mistral (generate_audit_report base_url pd)
                        HF_URL HF_API_TOKEN n1 with
                | (Raise e, n2) =>
                    (Raise e,
                     mkApp n2
                       ((p ++ [st_write ("### Article " ++ of_nat (i + 1))])
                        ++ [st_json (generate_audit_report base_url pd)])%list
                       d)
                | (Ok en, n2) =>
                    if negb (en =? "") then
                      (Ok tt,
                       mkApp n2
                         ((((p ++ [st_write ("### Article " ++ of_nat (i + 1))])
                            ++ [st_json (generate_audit_report base_url pd)])
                           ++ [st_expander "Enhanced Analysis" en])
                          ++ [st_markdown
                                (create_download_link
                                   (report_text json_dumps base_url
                                      (generate_audit_report base_url pd)
                                    ++ nl ++ nl ++ "Enhanced Analysis:" ++ nl
                                    ++ en)
                                   (report_filename i))])%list
                         (Some
                            (create_download_link
                               (report_text json_dumps base_url
                                  (generate_audit_report base_url pd)
                                ++ nl ++ nl ++ "Enhanced Analysis:" ++ nl
                                ++ en)
                               (report_filename i))))
                    else
                      match d with
                      | Some v =>
                          (Ok tt,
                           mkApp n2
                             ((((p ++ [st_write
                                         ("### Article " ++ of_nat (i + 1))])
                                ++ [st_json
                                      (generate_audit_report base_url pd)])
                               ++ [st_warning
                                     "Failed to retrieve enhanced analysis."])
                              ++ [st_markdown v])%list d)
                      | None =>
                          (Raise NameError,
                           mkApp n2
                             (((p ++ [st_write
                                        ("### Article " ++ of_nat (i + 1))])
                               ++ [st_json
                                     (generate_audit_report base_url pd)])
                              ++ [st_warning
                                    "Failed to retrieve enhanced analysis."])%list
                             d)
                      end
                end
            end
        end
    end.
Proof.
  unfold audit_article. rewrite bind_st.
  destruct (page_html_of article) as [html | e];
    [| now rewrite bind_of_result_raise].
  rewrite (bind_of_result _ _ _ html eq_refl).
  destruct (get_base_url_from_html html) as [base_url | e];
    [| now rewrite bind_of_result_raise].
  rewrite (bind_of_result _ _ _ base_url eq_refl).
  destruct (parse_html html base_url n) as [[pd | e] n1] eqn:Ep;
    [| now rewrite (bind_on_net_raise _ _ _ _ _ _ _ Ep)].
  rewrite (bind_on_net _ _ _ _ _ _ _ Ep), bind_st.
  destruct (send_to_mistral (generate_audit_report base_url pd) HF_URL
              HF_API_TOKEN n1) as [[en | e] n2] eqn:Es;
    [| now rewrite (bind_on_net_raise _ _ _ _ _ _ _ Es)].
  rewrite (bind_on_net _ _ _ _ _ _ _ Es).
  destruct (negb (en =? "")).
  - rewrite bind_st.
    unfold bind, assign_download_link, read_download_link, st.
    cbv beta iota delta [download_link net_state page]. reflexivity.
  - rewrite bind_st.
    unfold bind, read_download_link, st.
    cbv beta iota delta [download_link net_state page].
    destruct d; reflexivity.
Qed.

Lemma page_html_of_raises article e :
  page_html_of article = Raise e -> e = TypeError \/ e = KeyError.
Proof.
  unfold page_html_of.
  destruct article as [| b | z | t | l | d];
    try (intro H; inversion H; auto).
  destruct (Bs4.lookup "page_html" d) as [v |]; [| inversion H1; auto].
  destruct v; inversion H1; auto.
Qed.

(** What one turn of the loop does to the page and to [download_link]. *)
Lemma audit_article_effect i article (a a' : app) res :
  audit_article i article a = (res, a') ->
  failures_on (page World a') = failures_on (page World a)
  /\ match res with
     | Ok _ =>
         length (reports_on (page World a'))
         = S (length (reports_on (page World a)))
         /\ length (downloads_on (page World a'))
            = S (length (downloads_on (page World a)))
         /\ download_link World a' <> None
     | Raise e =>
         (length (reports_on (page World a'))
          <= S (length (reports_on (page World a))))%nat
         /\ downloads_on (page World a') = downloads_on (page World a)
         /\ e <> StopException
         /\ (e = NameError ->
             download_link World a = None
             /\ length (reports_on (page World a'))
                = S (length (reports_on (page World a))))
     end.
Proof.
  destruct a as [n p d]. rewrite audit_article_eq.
  cbn [page download_link].
  destruct (page_html_of article) as [html | e] eqn:Eh.
  2:{ intro H. inversion H; subst. cbn [page].
      rewrite reports_on_snoc, failures_on_snoc, downloads_on_snoc, !app_nil_r.
      destruct (page_html_of_raises _ _ Eh); subst;
        repeat split; auto; discriminate. }
  destruct (get_base_url_from_html html) as [base_url | e] eqn:Eb.
  2:{ intro H. inversion H; subst. cbn [page].
      rewrite reports_on_snoc, failures_on_snoc, downloads_on_snoc, !app_nil_r.
      rewrite (get_base_url_from_html_raises _ _ Eb).
      repeat split; auto; discriminate. }
  destruct (parse_html html base_url n) as [[pd | e] n1] eqn:Ep.
  2:{ intro H. inversion H; subst. cbn [page].
      rewrite reports_on_snoc, failures_on_snoc, downloads_on_snoc, !app_nil_r.
      destruct (parse_html_raises _ _ _ _ _ Ep) as [-> | [x ->]];
        repeat split; auto; discriminate. }
  destruct (send_to_mistral_returns (generate_audit_report base_url pd)
              HF_URL HF_API_TOKEN n1) as (en & n2 & Es).
  rewrite Es.
  destruct (negb (en =? "")).
  - intro H. inversion H; subst. cbn [page download_link].
    rewrite !reports_on_snoc, !failures_on_snoc, !downloads_on_snoc.
    rewrite !app_nil_r, !length_app. cbn [length].
    repeat split; auto; try lia. discriminate.
  - destruct d as [v |]; intro H; inversion H; subst; cbn [page download_link].
    + rewrite !reports_on_snoc, !failures_on_snoc, !downloads_on_snoc.
      rewrite !app_nil_r, !length_app. cbn [length].
      repeat split; auto; try lia. discriminate.
    + rewrite !reports_on_snoc, !failures_on_snoc, !downloads_on_snoc.
      rewrite !app_nil_r, !length_app. cbn [length].
      repeat split; auto; try lia. discriminate.
Qed.

(** The whole loop. *)
Lemma loop_effect l : forall i (a a' : app) res,
  for_enumerate i audit_article l a = (res, a') ->
  failures_on (page World a') = failures_on (page World a)
  /\ match res with
     | Ok _ =>
         length (reports_on (page World a'))
         = (length (reports_on (page World a)) + length l)%nat
         /\ length (downloads_on (page World a'))
            = (length (downloads_on (page World a)) + length l)%nat
     | Raise e =>
         (length (reports_on (page World a'))
          <= length (reports_on (page World a)) + length l)%nat
         /\ (length (downloads_on (page World a'))
             < length (downloads_on (page World a)) + length l)%nat
         /\ e <> StopException
         /\ (e = NameError ->
             download_link World a = None
             /\ downloads_on (page World a') = downloads_on (page World a)
             /\ length (reports_on (page World a'))
                = S (length (reports_on (page World a))))
     end.
Proof.
  induction l as [| x t IH]; intros i a a' res H; cbn [for_enumerate] in H.
  - inversion H; subst. cbn [length]. split; [reflexivity |]. lia.
  - unfold bind in H.
    destruct (audit_article i x a) as [[[] | e] a1] eqn:E1.
    + destruct (audit_article_effect _ _ _ _ _ E1) as (Hf1 & Hr1 & Hd1 & Hl1).
      destruct (IH _ _ _ _ H) as (Hf & Hrest).
      split; [congruence |].
      destruct res as [[] | e].
      * cbn [length]. destruct Hrest. lia.
      * destruct Hrest as (Hr & Hd & Hs & Hn). cbn [length].
        split; [lia |]. split; [lia |]. split; [exact Hs |].
        intro En. destruct (Hn En) as (Hnone & _). now destruct Hl1.
    + inversion H; subst.
      destruct (audit_article_effect _ _ _ _ _ E1)
        as (Hf1 & Hr1 & Hd1 & Hs1 & Hn1).
      split; [exact Hf1 |]. cbn [length].
      split; [lia |]. split; [rewrite Hd1; lia |]. split; [exact Hs1 |].
      intro En. destruct (Hn1 En) as (Hnone & Hr'). auto.
Qed.

(** The run on an upload that offers articles: the title, the subheader,
    then the loop. *)
Lemma streamlit_app_loop data n p d :
  valid_articles_of data <> [] ->
  streamlit_app (Loaded data) (mkApp n p d)
  = for_enumerate 0 audit_article (valid_articles_of data)
      (mkApp n ((p ++ [st_title "SEO Audit Tool"])
                ++ [st_subheader "Audit Reports"])%list d).
Proof.
  intro H. unfold streamlit_app. rewrite bind_st.
  rewrite (bind_step _ _ _ _ _ (select_some data n _ d H)).
  rewrite bind_st. reflexivity.
Qed.

Lemma loop_start_page p :
  reports_on ((p ++ [st_title "SEO Audit Tool"])
              ++ [st_subheader "Audit Reports"]) = reports_on p
  /\ failures_on ((p ++ [st_title "SEO Audit Tool"])
                  ++ [st_subheader "Audit Reports"]) = failures_on p
  /\ downloads_on ((p ++ [st_title "SEO Audit Tool"])
                   ++ [st_subheader "Audit Reports"]) = downloads_on p.
Proof.
  rewrite !reports_on_snoc, !failures_on_snoc, !downloads_on_snoc.
  now rewrite !app_nil_r.
Qed.

(** A run that returns has shown one report and published one download link
    for each article the upload offers, and no error message. *)
Theorem completed_run_counts data (a a' : app) :
  streamlit_app (Loaded data) a = (Ok tt, a') ->
  valid_articles_of data <> []
  /\ length (reports_on (page World a'))
     = (length (reports_on (page World a))
        + length (valid_articles_of data))%nat
  /\ length (downloads_on (page World a'))
     = (length (downloads_on (page World a))
        + length (valid_articles_of data))%nat
  /\ failures_on (page World a') = failures_on (page World a).
Proof.
  destruct a as [n p d]. cbn [page]. intro H.
  destruct (valid_articles_of data) as [| x t] eqn:E.
  { destruct (select_none data n (p ++ [st_title "SEO Audit Tool"])%list d E)
      as (msg & Hs).
    unfold streamlit_app in H. rewrite bind_st in H. unfold bind in H.
    rewrite Hs in H. discriminate. }
  split; [discriminate |].
  rewrite streamlit_app_loop in H by (rewrite E; discriminate).
  rewrite E in H. apply loop_effect in H. cbn [page] in H.
  destruct (loop_start_page p) as (Hr & Hf & Hd).
  rewrite Hr, Hf, Hd in H. destruct H as (Hf' & Hr' & Hd'). auto.
Qed.

(** Once the loop has started, the script shows no error message and never
    stops of its own accord, however the run ends: an exception raised while
    an article is audited is not reported on the page, it ends the run, with
    at most one report per offered article shown and fewer download links
    than articles. *)
Theorem no_failure_indicator_in_loop data (a a' : app) res :
  valid_articles_of data <> [] ->
  streamlit_app (Loaded data) a = (res, a') ->
  failures_on (page World a') = failures_on (page World a)
  /\ res <> Raise StopException
  /\ (length (reports_on (page World a'))
      <= length (reports_on (page World a))
         + length (valid_articles_of data))%nat
  /\ (forall e, res = Raise e ->
        (length (downloads_on (page World a'))
         < length (downloads_on (page World a))
           + length (valid_articles_of data))%nat).
Proof.
  destruct a as [n p d]. cbn [page]. intros Hv H.
  rewrite streamlit_app_loop in H by exact Hv.
  apply loop_effect in H. cbn [page] in H.
  destruct (loop_start_page p) as (Hr & Hf & Hd).
  rewrite Hr, Hf, Hd in H. destruct H as (Hf' & H).
  split; [exact Hf' |].
  destruct res as [[] | e].
  - destruct H as (Hr' & Hd'). split; [discriminate |].
    split; [lia |]. intros e He. discriminate.
  - destruct H as (Hr' & Hd' & Hs & _). split; [congruence |].
    split; [lia |]. intros e' He. exact Hd'.
Qed.

(** The run ends with a [NameError] only where [download_link] is read
    before any assignment: the variable was unbound at the start, the loop
    was at its first article, whose report is on the page, and no download
    link has been published. *)
Theorem name_error_on_first_article_only data (a a' : app) :
  streamlit_app (Loaded data) a = (Raise NameError, a') ->
  download_link World a = None
  /\ length (reports_on (page World a'))
     = S (length (reports_on (page World a)))
  /\ downloads_on (page World a') = downloads_on (page World a).
Proof.
  destruct a as [n p d]. cbn [page download_link]. intro H.
  destruct (valid_articles_of data) as [| x t] eqn:E.
  { destruct (select_none data n (p ++ [st_title "SEO Audit Tool"])%list d E)
      as (msg & Hs).
    unfold streamlit_app in H. rewrite bind_st in H. unfold bind in H.
    rewrite Hs in H. discriminate. }
  rewrite streamlit_app_loop in H by (rewrite E; discriminate).
  apply loop_effect in H. cbn [page download_link] in H.
  destruct (loop_start_page p) as (Hr & Hf & Hd).
  rewrite Hr, Hd in H. destruct H as (_ & _ & _ & _ & Hn).
  destruct (Hn eq_refl) as (H1 & H2 & H3). auto.
Qed.

(** A turn whose enrichment text is empty, in a run where [download_link] is
    already bound: the page gets the report, the warning and the link that
    was bound before the turn, and the binding stays as it was. The link made
    from this turn's report is not the one published. *)
Theorem blank_enrichment_republishes_link i article (a : app) r n' v :
  audited article (net_state World a) r "" n' ->
  download_link World a = Some v ->
  audit_article i article a
  = (Ok tt,
     mkApp n'
       ((((page World a ++ [st_write ("### Article " ++ of_nat (i + 1))])
          ++ [st_json r])
         ++ [st_warning "Failed to retrieve enhanced analysis."])
        ++ [st_markdown v])%list
       (Some v)).
Proof.
  destruct a as [n p d]. cbn [net_state page download_link].
  intros (html & base_url & pd & n1 & Hh & Hb & Hp & -> & Hs) ->.
  rewrite audit_article_eq, Hh, Hb, Hp, Hs. reflexivity.
Qed.

End Properties.

(** ** The claims on concrete documents *)


(** A document with the same href on two anchors has two link records, two
    HEAD requests and a link count of two. *)
Lemma C10_one_record_per_anchor_witness :
  exists pd s',
    Example.parse_html Example.twice_markup "http://ext.com/"
      (Example.fresh_net Example.quiet) = (Ok pd, s')
    /\ map l_url (pd_links pd) = ["http://ext.com/b"; "http://ext.com/b"]
    /\ link_count (generate_audit_report "http://ext.com/" pd)
       = PyStr.len (Bs4.find_all_with "a" "href"
                      (Example.BeautifulSoup Example.twice_markup))
    /\ link_count (generate_audit_report "http://ext.com/" pd) = 2%Z.
Proof.
  eexists. eexists.
  match goal with |- ?A /\ _ => assert (H0 : A) by evaluate end.
  split; [exact H0 |].
  destruct (C10_one_record_per_anchor Example.world Example.http
              Example.BeautifulSoup Example.check_bracketed_netloc
              Example.checknetloc Example.twice_markup "http://ext.com/"
              "http://ext.com/" (Example.fresh_net Example.quiet) _ _ H0)
    as (_ & Hcount & _).
  split; [reflexivity |]. split; [exact Hcount | reflexivity].
Defined.



(** C2, the claim refuted: a link that answered 301 is counted as broken. *)
Lemma C2_redirect_counted_broken :
  let l := mkLink "http://site.com/old" (SInt 301) "internal" in
  is_broken l = true
  /\ spec_broken l = false
  /\ broken_link_count
       (generate_audit_report "http://site.com/" (mkParsed "" "" [] [] [l] ""))
     = 1%Z.
Proof. repeat split. Qed.



(** C4, the claim refuted: a document whose only anchor is relative has the
    empty string as base URL, and its anchor is classified as internal. *)
Lemma C4_relative_link_internal :
  Example.get_base_url_from_html Example.relative_markup = Ok ""
  /\ exists pd s',
       Example.parse_html Example.relative_markup ""
         (Example.fresh_net Example.quiet) = (Ok pd, s')
       /\ pd_links pd = [mkLink "/about" (SStr "Error") "internal"].
Proof.
  split; [evaluate |].
  eexists. eexists. split; evaluate.
Qed.

Lemma C4_empty_base_witness :
  (exists k s',
     Example.check_link "" "/about" (Example.fresh_net Example.quiet)
     = (Ok k, s')
     /\ l_url k = "/about" /\ l_type k = "internal")
  /\ (exists k s',
        Example.check_link "" "http://ext.com/b"
          (Example.fresh_net Example.quiet) = (Ok k, s')
        /\ l_url k = "http://ext.com/b" /\ l_type k = "external").
Proof.
  assert (N1 : netloc Example.check_bracketed_netloc Example.checknetloc
                 "/about" = Ok "") by evaluate.
  assert (N2 : netloc Example.check_bracketed_netloc Example.checknetloc
                 "http://ext.com/b" = Ok "ext.com") by evaluate.
  split.
  - eexists. eexists.
    match goal with |- ?A /\ _ => assert (H0 : A) by evaluate end.
    split; [exact H0 |].
    destruct (C4_empty_base Example.world Example.http
                Example.check_bracketed_netloc Example.checknetloc
                "/about" _ _ _ H0) as (Hu & n & Hn & Hi & _).
    split; [exact Hu |]. apply Hi.
    rewrite N1 in Hn. now inversion Hn.
  - eexists. eexists.
    match goal with |- ?A /\ _ => assert (H0 : A) by evaluate end.
    split; [exact H0 |].
    destruct (C4_empty_base Example.world Example.http
                Example.check_bracketed_netloc Example.checknetloc
                "http://ext.com/b" _ _ _ H0) as (Hu & n & Hn & _ & He).
    split; [exact Hu |]. apply He.
    rewrite N2 in Hn. inversion Hn. discriminate.
Defined.



(** C6, the claim refuted: against the base http://Example.com/ the anchor
    http://example.com/a has the same host without regard to case, and is
    classified as external. *)
Lemma C6_host_case_matters :
  Example.get_base_url_from_html Example.mixed_case_markup
  = Ok "http://Example.com/"
  /\ Example.spec_same_host "http://example.com/a" "http://Example.com/" = true
  /\ exists st s',
       Example.check_link "http://Example.com/" "http://example.com/a"
         (Example.fresh_net Example.quiet)
       = (Ok (mkLink "http://example.com/a" st "external"), s').
Proof.
  split; [evaluate |]. split; [evaluate |].
  eexists. eexists. evaluate.
Qed.

(** The resolution examples of the specification. *)
Lemma C6_internal_iff_same_netloc_witness :
  (exists k s',
     Example.check_link "https://example.com/" "/about"
       (Example.fresh_net Example.quiet) = (Ok k, s')
     /\ l_url k = "https://example.com/about" /\ l_type k = "internal")
  /\ (exists k s',
        Example.check_link "https://example.com/" "https://other.com/x"
          (Example.fresh_net Example.quiet) = (Ok k, s')
        /\ l_url k = "https://other.com/x" /\ l_type k = "external").
Proof.
  assert (N1 : netloc Example.check_bracketed_netloc Example.checknetloc
                 "https://example.com/about" = Ok "example.com") by evaluate.
  assert (N2 : netloc Example.check_bracketed_netloc Example.checknetloc
                 "https://other.com/x" = Ok "other.com") by evaluate.
  assert (N0 : netloc Example.check_bracketed_netloc Example.checknetloc
                 "https://example.com/" = Ok "example.com") by evaluate.
  split.
  - eexists. eexists.
    match goal with |- ?A /\ _ => assert (H0 : A) by evaluate end.
    split; [exact H0 |]. split; [reflexivity |].
    destruct (C6_internal_iff_same_netloc Example.world Example.http
                Example.check_bracketed_netloc Example.checknetloc
                "https://example.com/" "/about" _ _ _ H0)
      as (_ & n & b & Hn & Hb & Hi & _).
    apply Hi. cbn [l_url] in Hn. rewrite N1 in Hn. rewrite N0 in Hb.
    inversion Hn. inversion Hb. reflexivity.
  - eexists. eexists.
    match goal with |- ?A /\ _ => assert (H0 : A) by evaluate end.
    split; [exact H0 |]. split; [reflexivity |].
    destruct (C6_internal_iff_same_netloc Example.world Example.http
                Example.check_bracketed_netloc Example.checknetloc
                "https://example.com/" "https://other.com/x" _ _ _ H0)
      as (_ & n & b & Hn & Hb & _ & He).
    apply He. cbn [l_url] in Hn. rewrite N2 in Hn. rewrite N0 in Hb.
    inversion Hn. inversion Hb. discriminate.
Defined.

(** C7, the claim refuted: with a relative anchor before an absolute one the
    script returns the empty string, where the policy of the specification
    gives the root of the absolute one. *)
Lemma C7_only_the_first_anchor_counts :
  Example.BeautifulSoup Example.two_anchor_markup = Example.two_anchor_soup
  /\ Example.get_base_url_from_html Example.two_anchor_markup = Ok ""
  /\ Example.spec_resolveBase Example.two_anchor_soup = "http://x.com/".
Proof. repeat split; evaluate. Qed.

(** A first anchor with a scheme outside [uses_relative] gives the base "/",
    not the scheme and the host. *)
Lemma base_of_git_anchor :
  Example.get_base_url_from_html Example.git_markup = Ok "/"
  /\ Example.spec_resolveBase Example.git_soup = "git://github.com/".
Proof. split; evaluate. Qed.

(** An href on which [urlparse] raises ends base discovery with the
    [ValueError]. *)
Lemma base_of_bracket_anchor :
  Example.get_base_url_from_html Example.bracket_markup = Raise ValueError.
Proof. evaluate. Qed.

Lemma C7_base_discovery_witness :
  Example.get_base_url_from_html Example.mixed_case_markup
  = Ok "http://Example.com/"
  /\ Example.get_base_url_from_html Example.twice_markup
     = Ok "http://ext.com/"
  /\ Example.get_base_url_from_html Example.relative_markup = Ok "".
Proof.
  split; [| split].
  - pose proof (C7_base_discovery Example.BeautifulSoup
                  Example.check_bracketed_netloc Example.checknetloc
                  Example.mixed_case_markup) as H.
    vm_compute in H. destruct H as [H _]. apply H. discriminate.
  - pose proof (C7_base_discovery Example.BeautifulSoup
                  Example.check_bracketed_netloc Example.checknetloc
                  Example.twice_markup) as H.
    vm_compute in H. destruct H as [_ H].
    specialize (H eq_refl).
    destruct (H (Urllib.mkParseResult "http" "ext.com" "/b" "" "" "") eq_refl)
      as [_ H'].
    apply H'; [discriminate | tauto].
  - pose proof (C7_base_discovery Example.BeautifulSoup
                  Example.check_bracketed_netloc Example.checknetloc
                  Example.relative_markup) as H.
    vm_compute in H. destruct H as [_ H].
    specialize (H eq_refl).
    destruct (H (Urllib.mkParseResult "" "" "/about" "" "" "") eq_refl)
      as [H' _].
    apply H'. reflexivity.
Defined.

(** C9 on the code. When the text-generation call raises, [send_to_mistral]
    returns a non-empty message, the script takes it for an analysis, and the
    one artifact it publishes holds the report followed by that message, not
    the report alone. When the call returns blank text on the first article,
    the branch meant for a failed enrichment reads [download_link] before any
    assignment and the run ends with a [NameError], no artifact published. *)
Lemma C9_failed_enrichment_artifact :
  (exists a' r,
     Example.streamlit_app
       (Loaded (JList [Example.article Example.scenario_markup]))
       (Example.fresh_app (Example.mkWorld [] [Fails])) = (Ok tt, a')
     /\ reports_on (page Example.world a') = [r]
     /\ In (st_expander "Enhanced Analysis" "Error connecting to Mistral.")
          (page Example.world a')
     /\ downloads_on (page Example.world a')
        = [create_download_link
             (report_text Example.json_dumps "" r ++ PyStr.nl ++ PyStr.nl
              ++ "Enhanced Analysis:" ++ PyStr.nl
              ++ "Error connecting to Mistral.")
             "audit_report_1.txt"]
     /\ downloads_on (page Example.world a')
        <> [create_download_link (report_text Example.json_dumps "" r)
              "audit_report_1.txt"])
  /\ (exists a' r,
        Example.streamlit_app
          (Loaded (JList [Example.article Example.scenario_markup]))
          (Example.fresh_app (Example.mkWorld [] [Returns (JStr "  ")]))
        = (Raise NameError, a')
        /\ reports_on (page Example.world a') = [r]
        /\ In (st_warning "Failed to retrieve enhanced analysis.")
             (page Example.world a')
        /\ downloads_on (page Example.world a') = []).
Proof.
  split.
  - eexists. eexists. split; [evaluate |].
    split; [evaluate |].
    split; [vm_compute; tauto |].
    split; [evaluate |].
    vm_compute. discriminate.
  - eexists. eexists. split; [evaluate |].
    split; [evaluate |]. split; [vm_compute; tauto | evaluate].
Qed.

(** ** [create_download_link] *)

Section Download.
Import PyStr.

Lemma list_ind3 {A} (P : list A -> Prop) :
  P [] -> (forall a, P [a]) -> (forall a b, P [a; b]) ->
  (forall a b c t, P t -> P (a :: b :: c :: t)) ->
  forall l, P l.
Proof.
  intros H0 H1 H2 H3 l.
  assert (Q : P l /\ (forall a, P (a :: l)) /\ (forall a b, P (a :: b :: l))).
  { induction l as [| c t (IH0 & IH1 & IH2)]; auto. }
  exact (proj1 Q).
Qed.

Lemma digit_in_alphabet k :
  In (Base64.digit k) (chars Base64.alphabet) \/ Base64.digit k = "="%char.
Proof.
  unfold Base64.digit.
  generalize (N.to_nat k). intro n.
  assert (G : forall s m c, String.get m s = Some c -> In c (chars s)).
  { induction s as [| d s IH]; intros m c; cbn; [discriminate |].
    destruct m; [intro H; inversion H; auto | intro H; right; eauto]. }
  destruct (String.get n Base64.alphabet) as [c |] eqn:E; [| auto].
  left. eapply G, E.
Qed.

Lemma small_cases (P : N -> bool) :
  forallb P (map N.of_nat (seq 0 64)) = true ->
  forall k, (k < 64)%N -> P k = true.
Proof.
  intros H k Hk. rewrite forallb_forall in H. apply H.
  rewrite <- (N2Nat.id k). apply in_map. apply in_seq. lia.
Qed.

Lemma value_digit k : (k < 64)%N -> Base64Decode.value (Base64.digit k) = k.
Proof.
  intro Hk. apply N.eqb_eq.
  apply (small_cases (fun k => Base64Decode.value (Base64.digit k) =? k)%N);
    [vm_compute; reflexivity | exact Hk].
Qed.

Lemma digit_not_pad k :
  (k < 64)%N -> Ascii.eqb (Base64.digit k) "="%char = false.
Proof.
  intro Hk. apply negb_true_iff.
  apply (small_cases (fun k => negb (Ascii.eqb (Base64.digit k) "="%char)));
    [vm_compute; reflexivity | exact Hk].
Qed.

Lemma value_pad : Base64Decode.value "="%char = 0%N.
Proof. vm_compute. reflexivity. Qed.

(** The encoded text has four characters for every three bytes or part of
    three, all of them letters, digits, plus, slash or the padding sign. *)
Lemma encode_shape l :
  Forall (fun c => In c (chars Base64.alphabet) \/ c = "="%char)
    (Base64.encode l)
  /\ length (Base64.encode l) = (4 * ((length l + 2) / 3))%nat.
Proof.
  induction l as [| a | a b | a b c t (IHf & IHl)] using list_ind3.
  - split; [constructor | reflexivity].
  - split; [| reflexivity].
    cbn [Base64.encode].
    repeat (apply Forall_cons;
            [first [apply digit_in_alphabet | right; reflexivity] |]).
    constructor.
  - split; [| reflexivity].
    cbn [Base64.encode].
    repeat (apply Forall_cons;
            [first [apply digit_in_alphabet | right; reflexivity] |]).
    constructor.
  - cbn [Base64.encode]. split.
    + repeat (apply Forall_cons; [apply digit_in_alphabet |]). exact IHf.
    + cbn [length]. rewrite IHl.
      replace (S (S (S (length t))) + 2)%nat with (length t + 2 + 1 * 3)%nat
        by lia.
      rewrite Nat.div_add by lia. lia.
Qed.

Lemma decode_encode l :
  Forall (fun b => (b < 256)%N) l ->
  Base64Decode.decode (Base64.encode l) = l.
Proof.
  induction l as [| a | a b | a b c t IH] using list_ind3; intro F.
  - reflexivity.
  - inversion F as [| ? ? Ha _]; subst.
    cbn [Base64.encode Base64Decode.decode].
    rewrite Ascii.eqb_refl.
    rewrite !value_digit, value_pad
      by (try apply N.mod_lt; try apply N.Div0.div_lt_upper_bound; lia).
    f_equal. zify. Z.to_euclidean_division_equations. lia.
  - inversion F as [| ? ? Ha F']; subst. inversion F' as [| ? ? Hb _]; subst.
    cbn [Base64.encode Base64Decode.decode].
    rewrite digit_not_pad by (apply N.mod_lt; lia).
    rewrite Ascii.eqb_refl.
    rewrite !value_digit, value_pad
      by (try apply N.mod_lt; try apply N.Div0.div_lt_upper_bound; lia).
    f_equal; [| f_equal]; zify; Z.to_euclidean_division_equations; lia.
  - inversion F as [| ? ? Ha F']; subst. inversion F' as [| ? ? Hb F'']; subst.
    inversion F'' as [| ? ? Hc Ft]; subst.
    cbn [Base64.encode Base64Decode.decode].
    rewrite !digit_not_pad by (apply N.mod_lt; lia).
    rewrite !value_digit
      by (try apply N.mod_lt; try apply N.Div0.div_lt_upper_bound; lia).
    rewrite (IH Ft).
    f_equal; [| f_equal; [| f_equal]];
      zify; Z.to_euclidean_division_equations; lia.
Qed.

Lemma chars_app a b : chars (a ++ b) = (chars a ++ chars b)%list.
Proof.
  induction a as [| c a IH]; cbn; [reflexivity |].
  unfold chars in IH. now rewrite IH.
Qed.

Lemma length_chars s : length (chars s) = String.length s.
Proof. induction s as [| c s IH]; cbn; [reflexivity | now rewrite <- IH]. Qed.

Lemma takewhile_stop p l d r :
  Forall (fun c => p c = true) l -> p d = false ->
  takewhile p (l ++ d :: r) = l.
Proof.
  intros F Hd. induction F as [| c l Hc _ IH]; cbn.
  - now rewrite Hd.
  - now rewrite Hc, IH.
Qed.

Lemma payload_chars_no_quote c :
  In c (chars Base64.alphabet) \/ c = "="%char ->
  negb (Ascii.eqb c (ascii_of_nat 34)) = true.
Proof.
  intros [H | ->]; [| reflexivity].
  assert (F : forallb (fun c => negb (Ascii.eqb c (ascii_of_nat 34)))
                (chars Base64.alphabet) = true) by (vm_compute; reflexivity).
  rewrite forallb_forall in F. exact (F c H).
Qed.

Lemma payload_of_link val filename :
  payload_of (create_download_link val filename) = Base64.b64encode val.
Proof.
  unfold payload_of, create_download_link.
  rewrite !chars_app.
  remember (chars (Base64.b64encode val)) as b eqn:Eb.
  remember (chars " download=" ++ chars dq ++ chars filename ++ chars dq
            ++ chars ">Download Report</a>")%list as rest.
  cbn [chars list_ascii_of_string dq List.app skipn].
  rewrite takewhile_stop.
  - subst b. apply of_chars_chars.
  - subst b. unfold Base64.b64encode. rewrite chars_of_chars.
    eapply Forall_impl; [| exact (proj1 (encode_shape _))].
    intros c Hc. exact (payload_chars_no_quote c Hc).
  - reflexivity.
Qed.

(** The payload of a download link is the Base64 text of the report text:
    four characters for every three bytes or part of three, all of them
    letters, digits, plus, slash or the padding sign, so the payload cannot
    end the href attribute it sits in. *)
Theorem download_payload_shape val filename :
  let payload := payload_of (create_download_link val filename) in
  payload = Base64.b64encode val
  /\ Forall (fun c => In c (chars Base64.alphabet) \/ c = "="%char)
       (chars payload)
  /\ String.length payload = (4 * ((String.length val + 2) / 3))%nat.
Proof.
  cbv zeta. rewrite payload_of_link. split; [reflexivity |].
  unfold Base64.b64encode.
  change (string_of_list_ascii ?l) with (of_chars l).
  rewrite <- length_chars, !chars_of_chars.
  destruct (encode_shape (map N_of_ascii (list_ascii_of_string val)))
    as (Hf & Hl).
  split; [exact Hf |].
  rewrite Hl, length_map. change (list_ascii_of_string val) with (chars val).
  now rewrite length_chars.
Qed.

(** Decoding the payload of a download link gives back the text the link was
    made from, whatever the text and the file name. *)
Theorem download_link_round_trip val filename :
  Base64Decode.b64decode (payload_of (create_download_link val filename))
  = val.
Proof.
  rewrite payload_of_link.
  unfold Base64Decode.b64decode, Base64.b64encode.
  rewrite list_ascii_of_string_of_list_ascii.
  rewrite decode_encode.
  - rewrite map_map.
    rewrite (map_ext _ (fun c => c)) by (intro c; apply ascii_N_embedding).
    rewrite map_id. apply string_of_list_ascii_of_string.
  - apply Forall_forall. intros b Hb. apply in_map_iff in Hb.
    destruct Hb as (c & <- & _). apply N_ascii_bounded.
Qed.

End Download.

(** ** The first link of a document without a base element *)

Section FirstLink.
Import PyStr.

Variable World : Type.
Variable http : World -> request -> http_outcome * World.
Variable BeautifulSoup : string -> Bs4.soup.
Variable check_bracketed_netloc : string -> bool.
Variable checknetloc : string -> bool.

Local Abbreviation urlsplit :=
  (Urllib.urlsplit check_bracketed_netloc checknetloc).
Local Abbreviation urlparse :=
  (Urllib.urlparse check_bracketed_netloc checknetloc).
Local Abbreviation split_core :=
  (split_core check_bracketed_netloc checknetloc).
Local Abbreviation urljoin := (urljoin check_bracketed_netloc checknetloc).
Local Abbreviation netloc := (netloc check_bracketed_netloc checknetloc).
Local Abbreviation link_type := (link_type check_bracketed_netloc checknetloc).
Local Abbreviation check_link :=
  (check_link World http check_bracketed_netloc checknetloc).
Local Abbreviation parse_html :=
  (parse_html World http BeautifulSoup check_bracketed_netloc checknetloc).
Local Abbreviation get_base_url_from_html :=
  (get_base_url_from_html BeautifulSoup check_bracketed_netloc checknetloc).

Lemma urlsplit_eq url scheme :
  urlsplit url scheme
  = let '(sch, u) :=
      Urllib.split_scheme
        (remove Urllib.unsafe_url_byte
           (lstrip_by Urllib.c0_control_or_space url))
        (remove Urllib.unsafe_url_byte
           (strip_by Urllib.c0_control_or_space scheme)) in
    split_core sch u.
Proof. reflexivity. Qed.

Lemma substring_all s : forall m,
  (String.length s <= m)%nat -> substring 0 m s = s.
Proof.
  induction s as [| c s IH]; intros m Hm.
  - destruct m; reflexivity.
  - destruct m; cbn in *; [lia |]. rewrite IH by lia. reflexivity.
Qed.

Lemma takewhile_all p l : Forall (fun c => p c = true) l -> takewhile p l = l.
Proof.
  induction 1 as [| c l Hc _ IH]; cbn; [reflexivity |].
  now rewrite Hc, IH.
Qed.

Lemma dropwhile_all p l : Forall (fun c => p c = true) l -> dropwhile p l = [].
Proof.
  induction 1 as [| c l Hc _ IH]; cbn; [reflexivity |]. now rewrite Hc.
Qed.

Lemma dropwhile_app_stop p l r :
  Forall (fun c => p c = true) l ->
  match r with [] => True | d :: _ => p d = false end ->
  dropwhile p (l ++ r) = r.
Proof.
  intros F Hr. induction F as [| c l Hc _ IH]; cbn.
  - destruct r as [| d r]; [reflexivity |]. cbn. now rewrite Hr.
  - now rewrite Hc.
Qed.

Lemma takewhile_app_stop p l r :
  Forall (fun c => p c = true) l ->
  match r with [] => True | d :: _ => p d = false end ->
  takewhile p (l ++ r) = l.
Proof.
  intros F Hr. induction F as [| c l Hc _ IH]; cbn.
  - destruct r as [| d r]; [reflexivity |]. cbn. now rewrite Hr.
  - now rewrite Hc, IH.
Qed.

(** The netloc of a text that goes on with two slashes, a netloc without a
    delimiter and a delimiter or nothing. *)
Lemma splitnetloc_of n rest :
  Forall (fun c => netloc_char c = true) (chars n) ->
  starts_with_delim rest = true ->
  Urllib._splitnetloc ("//" ++ n ++ rest) = (n, rest).
Proof.
  intros Fn Hr. unfold Urllib._splitnetloc.
  cbn [append String.length substring].
  rewrite substring_all by lia.
  rewrite chars_app.
  assert (Fd : Forall (fun c => negb (Urllib.netloc_delim c) = true) (chars n)).
  { eapply Forall_impl; [| exact Fn]. unfold netloc_char. intros c Hc.
    now apply andb_true_iff in Hc. }
  assert (Hd : match chars rest with
               | [] => True
               | d :: _ => negb (Urllib.netloc_delim d) = false
               end).
  { destruct rest as [| d rest]; cbn; [exact I |]. cbn in Hr. now rewrite Hr. }
  rewrite (takewhile_app_stop _ _ _ Fd Hd), (dropwhile_app_stop _ _ _ Fd Hd).
  now rewrite !of_chars_chars.
Qed.

Lemma startswith_slashes x : startswith "//" ("//" ++ x) = true.
Proof.
  unfold startswith. apply String.prefix_correct.
  cbn. destruct x; reflexivity.
Qed.

(** On such a text the middle of [urlsplit], when it returns, returns that
    netloc and the scheme it was given. *)
Lemma split_core_netloc sch n rest sc n' u q f :
  Forall (fun c => netloc_char c = true) (chars n) ->
  starts_with_delim rest = true ->
  split_core sch ("//" ++ n ++ rest) = Ok (sc, n', u, q, f) ->
  sc = sch /\ n' = n.
Proof.
  intros Fn Hr. unfold split_core.
  rewrite startswith_slashes, (splitnetloc_of n rest Fn Hr).
  destruct (_ || _); [discriminate |].
  destruct (_ && _); [discriminate |]. cbn [rbind].
  destruct (Urllib.split1 "#" rest) as [u1 f1].
  destruct (Urllib.split1 "?" u1) as [u2 q1].
  destruct (_ && _); [discriminate |].
  intro H. inversion H. auto.
Qed.

(** *** Texts that start with a scheme of [uses_relative] and two slashes *)

Lemma lstrip_cons p c t : p c = false -> lstrip_by p (String c t) = String c t.
Proof.
  intro H. unfold lstrip_by. cbn [chars list_ascii_of_string dropwhile].
  rewrite H. unfold of_chars. cbn [string_of_list_ascii].
  f_equal. apply string_of_list_ascii_of_string.
Qed.

Lemma remove_cons p c t :
  p c = false -> remove p (String c t) = String c (remove p t).
Proof.
  intro H. unfold remove. cbn [chars list_ascii_of_string filter].
  rewrite H. reflexivity.
Qed.

Lemma of_chars_app a b : of_chars (a ++ b) = of_chars a ++ of_chars b.
Proof.
  induction a as [| c a IH]; cbn; [reflexivity |].
  unfold of_chars in IH. now rewrite IH.
Qed.

Lemma remove_app p a b : remove p (a ++ b) = remove p a ++ remove p b.
Proof. unfold remove. now rewrite chars_app, filter_app, of_chars_app. Qed.

Lemma remove_id p s :
  Forall (fun c => p c = false) (chars s) -> remove p s = s.
Proof.
  intro F. unfold remove.
  replace (filter (fun c => negb (p c)) (chars s)) with (chars s).
  - apply of_chars_chars.
  - symmetry. induction F as [| c l Hc _ IH]; cbn; [reflexivity |].
    now rewrite Hc, IH.
Qed.

Lemma urlsplit_prefixed sch x :
  In sch Urllib.uses_relative ->
  urlsplit (scheme_prefix sch ++ "//" ++ x) ""
  = split_core sch ("//" ++ remove Urllib.unsafe_url_byte x).
Proof.
  intro Hin. rewrite urlsplit_eq.
  change (remove Urllib.unsafe_url_byte
            (strip_by Urllib.c0_control_or_space "")) with "".
  cbn [In Urllib.uses_relative] in Hin.
  repeat (destruct Hin as [<- | Hin];
          [cbn [scheme_prefix String.eqb append Ascii.eqb Bool.eqb];
           rewrite lstrip_cons by reflexivity;
           rewrite !remove_cons by reflexivity;
           unfold Urllib.split_scheme; cbn [partition Ascii.eqb Bool.eqb];
           try reflexivity;
           destruct (partition ":" (remove Urllib.unsafe_url_byte x))
             as [[a b] |]; reflexivity |]).
  destruct Hin.
Qed.

Lemma netloc_char_safe n :
  Forall (fun c => netloc_char c = true) (chars n) ->
  Forall (fun c => Urllib.unsafe_url_byte c = false) (chars n).
Proof.
  apply Forall_impl. unfold netloc_char. intros c Hc.
  apply andb_true_iff in Hc. now apply negb_true_iff.
Qed.

Lemma remove_keeps_delim rest :
  starts_with_delim rest = true ->
  starts_with_delim (remove Urllib.unsafe_url_byte rest) = true.
Proof.
  destruct rest as [| d rest]; [reflexivity |]. cbn [starts_with_delim].
  intro Hd. rewrite remove_cons; [exact Hd |].
  revert Hd. unfold Urllib.netloc_delim, Urllib.unsafe_url_byte, mem.
  cbn [chars list_ascii_of_string existsb].
  rewrite !orb_false_r. intro Hd.
  apply orb_true_iff in Hd. destruct Hd as [Hd | Hd];
    [| apply orb_true_iff in Hd; destruct Hd as [Hd | Hd]];
    apply Ascii.eqb_eq in Hd; subst d; reflexivity.
Qed.

(** [urlsplit] on a scheme of [uses_relative], two slashes, a netloc and a
    delimiter or nothing: when it returns, it returns that scheme and that
    netloc. *)
Lemma urlsplit_rooted sch n rest sc n' u q f :
  In sch Urllib.uses_relative ->
  Forall (fun c => netloc_char c = true) (chars n) ->
  starts_with_delim rest = true ->
  urlsplit (scheme_prefix sch ++ "//" ++ n ++ rest) "" = Ok (sc, n', u, q, f) ->
  sc = sch /\ n' = n.
Proof.
  intros Hin Fn Hr. rewrite (urlsplit_prefixed sch (n ++ rest) Hin).
  rewrite remove_app, (remove_id _ n (netloc_char_safe n Fn)).
  apply split_core_netloc; [exact Fn | now apply remove_keeps_delim].
Qed.

Lemma urlparse_rooted sch n rest b :
  In sch Urllib.uses_relative ->
  Forall (fun c => netloc_char c = true) (chars n) ->
  starts_with_delim rest = true ->
  urlparse (scheme_prefix sch ++ "//" ++ n ++ rest) "" = Ok b ->
  Urllib.scheme b = sch /\ Urllib.netloc b = n.
Proof.
  intros Hin Fn Hr. unfold urlparse.
  destruct (urlsplit _ "") as [[[[[sc n'] u] q] f] |] eqn:E; [| discriminate].
  destruct (urlsplit_rooted _ _ _ _ _ _ _ _ Hin Fn Hr E) as [-> ->].
  cbn [rbind]. destruct (_ && _); [destruct (Urllib._splitparams u) |];
    intro H; inversion H; auto.
Qed.

(** *** The netloc that [urlsplit] returns *)

Lemma partition_chars (P : ascii -> Prop) c s a b :
  partition c s = Some (a, b) -> Forall P (chars s) -> Forall P (chars b).
Proof.
  revert a b. induction s as [| d s IH]; intros a b; cbn; [discriminate |].
  destruct (Ascii.eqb c d).
  - intros H F. inversion H; subst. now inversion F.
  - destruct (partition c s) as [[a' b'] |]; [| discriminate].
    intros H F. inversion H; subst. inversion F; subst. eapply IH; eauto.
Qed.

Lemma substring_chars (P : ascii -> Prop) s : forall a m,
  Forall P (chars s) -> Forall P (chars (substring a m s)).
Proof.
  induction s as [| d s IH]; intros a m F.
  - destruct a, m; cbn; constructor.
  - inversion F; subst.
    destruct a as [| a]; [destruct m as [| m] |]; cbn.
    + constructor.
    + constructor; [assumption | now apply IH].
    + now apply IH.
Qed.

Lemma takewhile_chars (P : ascii -> Prop) p l :
  Forall P l -> Forall (fun c => p c = true /\ P c) (takewhile p l).
Proof.
  induction 1 as [| c l Hc _ IH]; cbn; [constructor |].
  destruct (p c) eqn:E; constructor; auto.
Qed.

Lemma split_scheme_chars (P : ascii -> Prop) url d :
  Forall P (chars url) ->
  Forall P (chars (snd (Urllib.split_scheme url d))).
Proof.
  intro F. unfold Urllib.split_scheme.
  destruct (partition ":" url) as [[pre post] |] eqn:E; [| exact F].
  destruct pre as [| c0 pre]; [exact F |].
  destruct (_ && _); [| exact F].
  cbn [snd]. eapply partition_chars; eauto.
Qed.

Lemma split_core_chars sch u0 sc n u q f :
  Forall (fun c => Urllib.unsafe_url_byte c = false) (chars u0) ->
  split_core sch u0 = Ok (sc, n, u, q, f) ->
  sc = sch /\ Forall (fun c => netloc_char c = true) (chars n).
Proof.
  intro F. unfold split_core.
  destruct (startswith "//" u0).
  - unfold Urllib._splitnetloc.
    destruct (_ || _); [discriminate |].
    destruct (_ && _); [discriminate |]. cbn [rbind].
    match goal with
    | |- context [Urllib.split1 "#" ?r] =>
        destruct (Urllib.split1 "#" r) as [u1 f1]
    end.
    destruct (Urllib.split1 "?" u1) as [u2 q1].
    destruct (_ && _); [discriminate |].
    intro H. inversion H; subst. split; [reflexivity |].
    rewrite chars_of_chars.
    eapply Forall_impl;
      [| apply takewhile_chars, substring_chars, F].
    intros c [H1 H2]. unfold netloc_char. apply andb_true_iff.
    split; [exact H1 | now rewrite H2].
  - cbn [rbind].
    destruct (Urllib.split1 "#" u0) as [u1 f1].
    destruct (Urllib.split1 "?" u1) as [u2 q1].
    destruct (_ && _); [discriminate |].
    intro H. inversion H; subst. split; [reflexivity | constructor].
Qed.

Lemma remove_chars p s : Forall (fun c => p c = false) (chars (remove p s)).
Proof.
  unfold remove. rewrite chars_of_chars.
  induction (chars s) as [| c l IH]; cbn; [constructor |].
  destruct (p c) eqn:E; cbn; [exact IH | constructor; assumption].
Qed.

Lemma urlsplit_netloc_chars h d sc n u q f :
  urlsplit h d = Ok (sc, n, u, q, f) ->
  Forall (fun c => netloc_char c = true) (chars n).
Proof.
  rewrite urlsplit_eq.
  pose proof (split_scheme_chars (fun c => Urllib.unsafe_url_byte c = false)
                _ (remove Urllib.unsafe_url_byte
                     (strip_by Urllib.c0_control_or_space d))
                (remove_chars Urllib.unsafe_url_byte
                   (lstrip_by Urllib.c0_control_or_space h))) as F.
  destruct (Urllib.split_scheme _ _) as [sch u0]. cbn [snd] in F.
  intro H. exact (proj2 (split_core_chars _ _ _ _ _ _ _ F H)).
Qed.

(** *** Parsing again with the scheme that was found *)

Lemma split_scheme_default url :
  (exists s0 u0, forall d, Urllib.split_scheme url d = (s0, u0))
  \/ (forall d, Urllib.split_scheme url d = (d, url)).
Proof.
  unfold Urllib.split_scheme.
  destruct (partition ":" url) as [[pre post] |]; [| now right].
  destruct pre as [| c0 pre]; [now right |].
  destruct (_ && _); [left; eauto | now right].
Qed.

Lemma urlsplit_again h sc n u q f :
  urlsplit h "" = Ok (sc, n, u, q, f) ->
  urlsplit h sc = Ok (sc, n, u, q, f).
Proof.
  rewrite !urlsplit_eq.
  change (remove Urllib.unsafe_url_byte
            (strip_by Urllib.c0_control_or_space "")) with "".
  destruct (split_scheme_default
              (remove Urllib.unsafe_url_byte
                 (lstrip_by Urllib.c0_control_or_space h)))
    as [(s0 & u0 & E) | E]; rewrite !E.
  - auto.
  - intro H.
    assert (sc = "").
    { unfold split_core in H.
      destruct (if startswith "//" _ then _ else _) as [[n0 r0] |];
        [| discriminate].
      cbn [rbind] in H.
      destruct (Urllib.split1 "#" r0) as [u1 f1].
      destruct (Urllib.split1 "?" u1) as [u2 q1].
      destruct (_ && _); [discriminate |]. now inversion H. }
    subst sc.
    change (remove Urllib.unsafe_url_byte
              (strip_by Urllib.c0_control_or_space "")) with "".
    exact H.
Qed.

Lemma urlparse_again h p :
  urlparse h "" = Ok p -> urlparse h (Urllib.scheme p) = Ok p.
Proof.
  unfold urlparse.
  destruct (urlsplit h "") as [[[[[sc n] u] q] f] |] eqn:E; [| discriminate].
  cbn [rbind]. intro H.
  assert (Hs : Urllib.scheme p = sc).
  { destruct (_ && _); [destruct (Urllib._splitparams u) |];
      inversion H; reflexivity. }
  rewrite Hs, (urlsplit_again _ _ _ _ _ _ E). exact H.
Qed.

Lemma urlparse_netloc_chars h d p :
  urlparse h d = Ok p ->
  Forall (fun c => netloc_char c = true) (chars (Urllib.netloc p)).
Proof.
  unfold urlparse.
  destruct (urlsplit h d) as [[[[[sc n] u] q] f] |] eqn:E; [| discriminate].
  cbn [rbind]. intro H.
  assert (Hn : Urllib.netloc p = n).
  { destruct (_ && _); [destruct (Urllib._splitparams u) |];
      inversion H; reflexivity. }
  rewrite Hn. eapply urlsplit_netloc_chars, E.
Qed.

(** *** What [urlunparse] and [urljoin] give *)

Lemma append_assoc a b c : (a ++ b) ++ c = a ++ b ++ c.
Proof. induction a as [| d a IH]; cbn; [reflexivity | now rewrite IH]. Qed.

Lemma append_nil_r a : a ++ "" = a.
Proof. induction a as [| d a IH]; cbn; [reflexivity | now rewrite IH]. Qed.

Lemma startswith_slash c t : startswith "/" (String c t) = true -> c = "/"%char.
Proof.
  unfold startswith. intro H. apply String.prefix_correct in H.
  cbn in H. destruct t; inversion H; reflexivity.
Qed.

Lemma urlunsplit_shape sch n url q f :
  n <> "" ->
  exists rest,
    Urllib.urlunsplit sch n url q f = scheme_prefix sch ++ "//" ++ n ++ rest
    /\ starts_with_delim rest = true.
Proof.
  intro Hn. apply String.eqb_neq in Hn.
  unfold Urllib.urlunsplit. rewrite Hn. cbn [negb orb].
  exists ((if negb (url =? "") && negb (startswith "/" url)
           then "/" ++ url else url)
          ++ (if negb (q =? "") then "?" ++ q else "")
          ++ (if negb (f =? "") then "#" ++ f else "")).
  split.
  - unfold scheme_prefix.
    destruct (sch =? ""), (q =? ""), (f =? ""); cbn [negb];
      rewrite ?append_assoc, ?append_nil_r; cbn [append];
      rewrite ?append_assoc, ?append_nil_r; reflexivity.
  - destruct url as [| c t].
    + cbn [String.eqb negb andb append].
      destruct (q =? ""); cbn [negb append starts_with_delim];
        [| reflexivity].
      destruct (f =? ""); reflexivity.
    + cbn [String.eqb negb andb].
      destruct (startswith "/" (String c t)) eqn:E; cbn [negb].
      * apply startswith_slash in E. subst c. reflexivity.
      * reflexivity.
Qed.

Lemma urlunparse_shape p :
  Urllib.netloc p <> "" ->
  exists rest,
    Urllib.urlunparse p
    = scheme_prefix (Urllib.scheme p) ++ "//" ++ Urllib.netloc p ++ rest
    /\ starts_with_delim rest = true.
Proof. intro Hn. unfold Urllib.urlunparse. now apply urlunsplit_shape. Qed.

Lemma in_list_In s l : In s l -> Urllib.in_list s l = true.
Proof.
  intro H. unfold Urllib.in_list. apply existsb_exists.
  exists s. split; [exact H | apply String.eqb_refl].
Qed.

Lemma relative_uses_netloc s :
  In s Urllib.uses_relative -> Urllib.in_list s Urllib.uses_netloc = true.
Proof.
  intro H. cbn [In Urllib.uses_relative] in H.
  repeat (destruct H as [<- | H]; [reflexivity |]). destruct H.
Qed.

Lemma rooted_not_empty sch x : (scheme_prefix sch ++ "//" ++ x =? "") = false.
Proof.
  unfold scheme_prefix. destruct (sch =? "") eqn:E; [reflexivity |].
  destruct sch; [discriminate | reflexivity].
Qed.

Lemma urlparse_href_not_empty h p :
  urlparse h "" = Ok p -> Urllib.netloc p <> "" -> (h =? "") = false.
Proof.
  intros Hp Hn. destruct (String.eqb_spec h "") as [-> | _]; [| reflexivity].
  cbv in Hp. inversion Hp; subst. now destruct Hn.
Qed.

(** Against the root of an href, the href resolves to itself, put together
    again by [urlunparse]. *)
Lemma urljoin_rooted h p b :
  urlparse h "" = Ok p ->
  Urllib.netloc p <> "" ->
  In (Urllib.scheme p) Urllib.uses_relative ->
  urlparse (scheme_prefix (Urllib.scheme p) ++ "//" ++ Urllib.netloc p ++ "/")
    "" = Ok b ->
  urljoin (scheme_prefix (Urllib.scheme p) ++ "//" ++ Urllib.netloc p ++ "/") h
  = Ok (Urllib.urlunparse p).
Proof.
  intros Hp Hn Hs Hb.
  destruct (urlparse_rooted _ _ "/" b Hs (urlparse_netloc_chars _ _ _ Hp)
              eq_refl Hb) as [Hbs _].
  unfold urljoin, Urllib.urljoin.
  rewrite rooted_not_empty, (urlparse_href_not_empty h p Hp Hn), Hb.
  cbn [rbind]. rewrite Hbs, (urlparse_again h p Hp). cbn [rbind].
  rewrite String.eqb_refl, (in_list_In _ _ Hs), (relative_uses_netloc _ Hs).
  apply String.eqb_neq in Hn. rewrite Hn. reflexivity.
Qed.

(** *** The theorem *)

(** In a document without a base href, the first anchor that carries an href
    is classified as internal whenever its href has no network location or
    has a scheme that [urllib] resolves relatively (http, https, ftp, ...,
    or none): the base URL the script derives is taken from that very
    anchor, so the anchor's network location is the base's, whatever site it
    points to. *)
Theorem first_link_is_internal page_html first_link rest p :
  match Bs4.find "base" (BeautifulSoup page_html) with
  | Some base_tag => Bs4.get_default base_tag "href" ""
  | None => ""
  end = "" ->
  Bs4.find_all_with "a" "href" (BeautifulSoup page_html) = first_link :: rest ->
  urlparse (Bs4.get_default first_link "href" "") "" = Ok p ->
  Urllib.netloc p = "" \/ In (Urllib.scheme p) Urllib.uses_relative ->
  exists base_url,
    get_base_url_from_html page_html = Ok base_url
    /\ forall (s s' : net World) pd,
         parse_html page_html base_url s = (Ok pd, s') ->
         exists k ks, pd_links pd = k :: ks /\ l_type k = "internal".
Proof.
  intros Hbase Hfirst Hp Hcase.
  set (h := Bs4.get_default first_link "href" "") in *.
  assert (Hnet : netloc h = Ok (Urllib.netloc p)).
  { unfold netloc, Urllib.netloc_of. now rewrite Hp. }
  (* the base the script derives *)
  assert (Hget : get_base_url_from_html page_html
                 = if Urllib.netloc p =? "" then Ok ""
                   else urljoin h "/").
  { assert (F : base_from_first_link check_bracketed_netloc checknetloc
                  (BeautifulSoup page_html)
                = if Urllib.netloc p =? "" then Ok "" else urljoin h "/").
    { unfold base_from_first_link. rewrite Hfirst. cbn [hd_error].
      fold h. fold netloc. rewrite Hnet. cbn [rbind].
      destruct (Urllib.netloc p =? ""); reflexivity. }
    unfold get_base_url_from_html.
    destruct (Bs4.find "base" (BeautifulSoup page_html)) as [base_tag |];
      [| exact F].
    rewrite Hbase. exact F. }
  (* what the loop makes of the first href *)
  assert (Hloop : forall base_url (s s' : net World) pd,
            parse_html page_html base_url s = (Ok pd, s') ->
            exists k ks full ty,
              pd_links pd = k :: ks
              /\ urljoin base_url h = Ok full
              /\ link_type base_url full = Ok ty
              /\ l_type k = ty).
  { intros base_url s s' pd H.
    apply parse_html_ok in H. destruct H as [_ H].
    unfold hrefs in H. rewrite Hfirst in H. cbn [map for_each] in H.
    apply bind_ok in H. destruct H as (k & s1 & Hk & H).
    apply bind_ok in H. destruct H as (ks & s2 & _ & H).
    inversion H; subst.
    apply check_link_ok in Hk.
    destruct Hk as (full & st & ty & Hfull & _ & Hty & ->).
    exists (mkLink full st ty), ks, full, ty. auto. }
  destruct (String.eqb_spec (Urllib.netloc p) "") as [E | E].
  - (* no network location: the base is empty *)
    exists "". split; [exact Hget |].
    intros s s' pd H.
    destruct (Hloop _ _ _ _ H) as (k & ks & full & ty & Hl & Hfull & Hty & Hk).
    exists k, ks. split; [exact Hl |]. rewrite Hk.
    cbn in Hfull. inversion Hfull; subst full.
    unfold link_type in Hty. fold netloc in Hty.
    rewrite Hnet, E in Hty. cbn in Hty. now inversion Hty.
  - (* a network location: the base is the root of the href *)
    destruct Hcase as [Hcase | Hs]; [now destruct E |].
    pose proof (urljoin_root check_bracketed_netloc checknetloc h p Hp E Hs)
      as Hroot.
    fold (scheme_prefix (Urllib.scheme p)) in Hroot.
    eexists. split; [rewrite Hget; exact Hroot |].
    intros s s' pd H.
    destruct (Hloop _ _ _ _ H) as (k & ks & full & ty & Hl & Hfull & Hty & Hk).
    exists k, ks. split; [exact Hl |]. rewrite Hk.
    unfold link_type in Hty. fold netloc in Hty.
    destruct (netloc full) as [n1 |] eqn:En1; [| discriminate].
    cbn [rbind] in Hty.
    destruct (netloc (scheme_prefix (Urllib.scheme p) ++ "//"
                      ++ Urllib.netloc p ++ "/")) as [n2 |] eqn:En2;
      [| discriminate].
    cbn [rbind] in Hty.
    pose proof (urlparse_netloc_chars _ _ _ Hp) as Fn.
    (* the network location of the base *)
    unfold netloc, Urllib.netloc_of in En2.
    destruct (urlparse (scheme_prefix (Urllib.scheme p) ++ "//"
                        ++ Urllib.netloc p ++ "/") "") as [b |] eqn:Eb;
      [| discriminate].
    cbn [rbind] in En2. inversion En2; subst n2.
    destruct (urlparse_rooted _ _ "/" b Hs Fn eq_refl Eb) as [_ Hbn].
    (* the network location of the resolved href *)
    rewrite (urljoin_rooted h p b Hp E Hs Eb) in Hfull.
    inversion Hfull; subst full.
    destruct (urlunparse_shape p E) as (tail & Hshape & Htail).
    rewrite Hshape in En1.
    unfold netloc, Urllib.netloc_of in En1.
    destruct (urlparse (scheme_prefix (Urllib.scheme p) ++ "//"
                        ++ Urllib.netloc p ++ tail) "") as [u |] eqn:Eu;
      [| discriminate].
    cbn [rbind] in En1. inversion En1; subst n1.
    destruct (urlparse_rooted _ _ tail u Hs Fn Htail Eu) as [_ Hun].
    rewrite Hun, Hbn, String.eqb_refl in Hty. now inversion Hty.
Qed.

(** *** Classification against a base with a network location *)

Lemma netloc_of_unparse q n1 :
  Urllib.netloc q <> "" ->
  In (Urllib.scheme q) Urllib.uses_relative ->
  Forall (fun c => netloc_char c = true) (chars (Urllib.netloc q)) ->
  netloc (Urllib.urlunparse q) = Ok n1 ->
  n1 = Urllib.netloc q.
Proof.
  intros Hn Hs Fn H.
  destruct (urlunparse_shape q Hn) as (tail & Hshape & Htail).
  rewrite Hshape in H. unfold netloc, Urllib.netloc_of in H.
  destruct (urlparse _ "") as [u |] eqn:Eu; [| discriminate].
  cbn [rbind] in H. inversion H; subst n1.
  exact (proj2 (urlparse_rooted _ _ tail u Hs Fn Htail Eu)).
Qed.

(** How a link is classified against a base URL that has a network location
    and a scheme [urllib] resolves relatively, for an href that has no scheme
    of its own or the scheme of the base: the link is internal exactly when
    the href has no network location (a relative reference) or has the
    network location of the base. *)
Theorem classification_against_a_base base_url href b u (s s' : net World) k :
  urlparse base_url "" = Ok b ->
  In (Urllib.scheme b) Urllib.uses_relative ->
  Urllib.netloc b <> "" ->
  href <> "" ->
  urlparse href (Urllib.scheme b) = Ok u ->
  Urllib.scheme u = Urllib.scheme b ->
  check_link base_url href s = (Ok k, s') ->
  (l_type k = "internal"
   <-> Urllib.netloc u = "" \/ Urllib.netloc u = Urllib.netloc b).
Proof.
  intros Hb Hs Hnb Hh Hu Hsu Hk.
  apply check_link_ok in Hk.
  destruct Hk as (full & st & ty & Hfull & _ & Hty & ->). cbn [l_type].
  pose proof (urlparse_netloc_chars _ _ _ Hb) as Fb.
  pose proof (urlparse_netloc_chars _ _ _ Hu) as Fu.
  (* the network location of the base *)
  unfold link_type in Hty. fold netloc in Hty.
  destruct (netloc full) as [n1 |] eqn:En1; [| discriminate].
  cbn [rbind] in Hty.
  assert (Enb : netloc base_url = Ok (Urllib.netloc b)).
  { unfold netloc, Urllib.netloc_of. now rewrite Hb. }
  rewrite Enb in Hty. cbn [rbind] in Hty. inversion Hty; subst ty. clear Hty.
  (* the resolved href *)
  unfold urljoin, Urllib.urljoin in Hfull.
  rewrite (urlparse_href_not_empty base_url b Hb Hnb) in Hfull.
  apply String.eqb_neq in Hh. rewrite Hh, Hb in Hfull. cbn [rbind] in Hfull.
  rewrite Hu in Hfull. cbn [rbind] in Hfull.
  rewrite Hsu, String.eqb_refl, (in_list_In _ _ Hs),
    (relative_uses_netloc _ Hs) in Hfull.
  cbn [negb orb andb] in Hfull.
  assert (R : forall n, (if n1 =? n then "internal" else "external")
                        = "internal" <-> n1 = n).
  { intro n. destruct (String.eqb_spec n1 n); split; congruence. }
  rewrite R. clear R.
  destruct (String.eqb_spec (Urllib.netloc u) "") as [E | E];
    cbn [negb] in Hfull.
  - (* a relative reference: the network location of the base is kept *)
    assert (n1 = Urllib.netloc b).
    { destruct (_ && _); inversion Hfull; subst full;
        apply netloc_of_unparse in En1; auto. }
    split; [intros _; now left | intros _; assumption].
  - (* an href with a network location: it is kept *)
    inversion Hfull; subst full.
    apply netloc_of_unparse in En1; [| exact E | now rewrite Hsu | exact Fu].
    subst n1. split; [auto | intros [H | H]; [now destruct E | exact H]].
Qed.

End FirstLink.

(** ** The further properties on concrete documents *)

Lemma headers_six_levels_witness :
  exists pd s',
    Sample.parse_html Sample.page_markup "http://site.com/"
      (Example.fresh_net Sample.head_refused) = (Ok pd, s')
    /\ pd_headers pd
       = [("h1", 1%Z); ("h2", 2%Z); ("h3", 0%Z); ("h4", 0%Z); ("h5", 0%Z);
          ("h6", 0%Z)].
Proof.
  eexists. eexists.
  match goal with |- ?A /\ _ => assert (H0 : A) by evaluate end.
  split; [exact H0 |].
  destruct (headers_six_levels Example.world Example.http Sample.BeautifulSoup
              Example.check_bracketed_netloc Example.checknetloc
              Sample.page_markup "http://site.com/"
              (Example.fresh_net Sample.head_refused) _ _ H0) as (Hh & _).
  rewrite Hh. evaluate.
Defined.

Lemma image_count_is_img_elements_witness :
  exists pd s',
    Sample.parse_html Sample.page_markup "http://site.com/"
      (Example.fresh_net Sample.head_refused) = (Ok pd, s')
    /\ image_count (generate_audit_report "http://site.com/" pd) = 1%Z.
Proof.
  eexists. eexists.
  match goal with |- ?A /\ _ => assert (H0 : A) by evaluate end.
  split; [exact H0 |].
  rewrite (image_count_is_img_elements Example.world Example.http
             Sample.BeautifulSoup Example.check_bracketed_netloc
             Example.checknetloc Sample.page_markup "http://site.com/"
             (Example.fresh_net Sample.head_refused) _ _ H0).
  evaluate.
Defined.

Lemma bad_image_stops_before_probing_witness :
  Sample.parse_html Sample.bad_image_markup "http://site.com/"
    (Example.fresh_net Example.quiet)
  = (Raise ValueError, Example.fresh_net Example.quiet).
Proof.
  assert (Hin : In (Bs4.Tag "img" [("src", "//[")] [])
                  (Bs4.find_all "img"
                     (Sample.BeautifulSoup Sample.bad_image_markup)))
    by (vm_compute; left; reflexivity).
  assert (Hj : urljoin Example.check_bracketed_netloc Example.checknetloc
                 "http://site.com/"
                 (Bs4.get_default (Bs4.Tag "img" [("src", "//[")] []) "src" "")
               = Raise ValueError) by evaluate.
  exact (bad_image_stops_before_probing Example.world Example.http
           Sample.BeautifulSoup Example.check_bracketed_netloc
           Example.checknetloc Sample.bad_image_markup "http://site.com/"
           (Example.fresh_net Example.quiet) _ _ Hin Hj).
Defined.

Lemma requests_of_parse_html_witness :
  exists pd s',
    Sample.parse_html Sample.page_markup "http://site.com/"
      (Example.fresh_net Sample.head_refused) = (Ok pd, s')
    /\ length (pd_links pd) = 1%nat
    /\ (length (pd_links pd) <= length (requests_log Example.world s')
        <= 2 * length (pd_links pd))%nat
    /\ Forall (fun r => timeout r = 10%Z
                        /\ allow_redirects r = true
                        /\ In (target r) (map l_url (pd_links pd)))
         (requests_log Example.world s').
Proof.
  eexists. eexists.
  match goal with |- ?A /\ _ => assert (H0 : A) by evaluate end.
  split; [exact H0 |]. split; [evaluate |].
  destruct (requests_of_parse_html Example.world Example.http
              Sample.BeautifulSoup Example.check_bracketed_netloc
              Example.checknetloc Sample.page_markup "http://site.com/"
              (Example.fresh_net Sample.head_refused) _ _ H0)
    as (blocks & _ & Hlog & Hall & Hlen).
  change (requests_log Example.world (Example.fresh_net Sample.head_refused))
    with (@nil request) in Hlog.
  cbn [List.app] in Hlog. rewrite Hlog. split; [exact Hlen | exact Hall].
Defined.

Lemma text_fields_trimmed_witness :
  exists pd s',
    Sample.parse_html Sample.page_markup "http://site.com/"
      (Example.fresh_net Sample.head_refused) = (Ok pd, s')
    /\ pd_meta_title pd = "Hi  there"
    /\ pd_main_text pd = "Hi there A B C Some text here x"
    /\ trimmed (pd_meta_title pd)
    /\ trimmed (pd_main_text pd)
    /\ single_spaced (PyStr.chars (pd_main_text pd)).
Proof.
  eexists. eexists.
  match goal with |- ?A /\ _ => assert (H0 : A) by evaluate end.
  split; [exact H0 |]. split; [evaluate |]. split; [evaluate |].
  destruct (text_fields_trimmed Example.world Example.http
              Sample.BeautifulSoup Example.check_bracketed_netloc
              Example.checknetloc Sample.page_markup "http://site.com/"
              (Example.fresh_net Sample.head_refused) _ _ H0)
    as (Ht & _ & _ & Hm & Hs).
  auto.
Defined.


Lemma upload_without_articles_stops_witness :
  exists msg,
    Example.streamlit_app
      (Loaded (JList [JDict [("url", JStr "http://site.com/2")]; JNull]))
      (Example.fresh_app Example.quiet)
    = (Raise StopException,
       mkApp Example.world (Example.fresh_net Example.quiet)
         [st_title "SEO Audit Tool"; st_error msg] None).
Proof.
  assert (V : valid_articles_of
                (JList [JDict [("url", JStr "http://site.com/2")]; JNull])
              = []) by evaluate.
  destruct (upload_without_articles_stops Example.world Example.http
              Example.text_generation Example.BeautifulSoup
              Example.json_dumps Example.check_bracketed_netloc
              Example.checknetloc Example.HF_API_TOKEN _
              (Example.fresh_app Example.quiet) V) as (msg & H).
  exists msg. unfold Example.streamlit_app. rewrite H. reflexivity.
Defined.

Lemma completed_run_counts_witness :
  exists a',
    Example.streamlit_app (Loaded Example.batch)
      (Example.fresh_app Example.quiet) = (Ok tt, a')
    /\ length (reports_on (page Example.world a')) = 2%nat
    /\ length (downloads_on (page Example.world a')) = 2%nat
    /\ failures_on (page Example.world a') = [].
Proof.
  eexists.
  match goal with |- ?A /\ _ => assert (H0 : A) by evaluate end.
  split; [exact H0 |].
  destruct (completed_run_counts Example.world Example.http
              Example.text_generation Example.BeautifulSoup
              Example.json_dumps Example.check_bracketed_netloc
              Example.checknetloc Example.HF_API_TOKEN Example.batch
              (Example.fresh_app Example.quiet) _ H0) as (_ & Hr & Hd & Hf).
  rewrite Hr, Hd, Hf. repeat split; evaluate.
Defined.

Lemma no_failure_indicator_in_loop_witness :
  exists a',
    Example.streamlit_app
      (Loaded (JList [Example.article Example.scenario_markup;
                      Example.article Example.bracket_markup]))
      (Example.fresh_app Example.quiet) = (Raise ValueError, a')
    /\ failures_on (page Example.world a') = []
    /\ (length (downloads_on (page Example.world a')) < 2)%nat.
Proof.
  eexists.
  match goal with |- ?A /\ _ => assert (H0 : A) by evaluate end.
  split; [exact H0 |].
  assert (V : valid_articles_of
                (JList [Example.article Example.scenario_markup;
                        Example.article Example.bracket_markup]) <> [])
    by (vm_compute; discriminate).
  destruct (no_failure_indicator_in_loop Example.world Example.http
              Example.text_generation Example.BeautifulSoup
              Example.json_dumps Example.check_bracketed_netloc
              Example.checknetloc Example.HF_API_TOKEN _
              (Example.fresh_app Example.quiet) _ _ V H0)
    as (Hf & _ & _ & Hd).
  split; [rewrite Hf; evaluate |].
  exact (Hd ValueError eq_refl).
Defined.

Lemma name_error_on_first_article_only_witness :
  exists a',
    Example.streamlit_app
      (Loaded (JList [Example.article Example.scenario_markup;
                      Example.article Example.twice_markup]))
      (Example.fresh_app (Example.mkWorld [] [Returns (JStr "  ")]))
    = (Raise NameError, a')
    /\ length (reports_on (page Example.world a')) = 1%nat
    /\ downloads_on (page Example.world a') = [].
Proof.
  eexists.
  match goal with |- ?A /\ _ => assert (H0 : A) by evaluate end.
  split; [exact H0 |].
  destruct (name_error_on_first_article_only Example.world Example.http
              Example.text_generation Example.BeautifulSoup
              Example.json_dumps Example.check_bracketed_netloc
              Example.checknetloc Example.HF_API_TOKEN _
              (Example.fresh_app (Example.mkWorld [] [Returns (JStr "  ")]))
              _ H0) as (_ & Hr & Hd).
  rewrite Hr, Hd. split; evaluate.
Defined.

Lemma blank_enrichment_republishes_link_witness :
  exists a',
    audit_article Example.world Example.http Example.text_generation
      Example.BeautifulSoup Example.json_dumps Example.check_bracketed_netloc
      Example.checknetloc Example.HF_API_TOKEN 1
      (Example.article Example.twice_markup)
      (mkApp Example.world
         (Example.fresh_net (Example.mkWorld [] [Returns (JStr "")]))
         [] (Some "the link of article 1"))
    = (Ok tt, a')
    /\ downloads_on (page Example.world a') = ["the link of article 1"]
    /\ download_link Example.world a' = Some "the link of article 1".
Proof.
  eexists. split.
  - eapply blank_enrichment_republishes_link.
    + do 4 eexists. split; [evaluate |]. split; [evaluate |].
      split; [evaluate |]. split; [reflexivity |]. evaluate.
    + reflexivity.
  - split; evaluate.
Defined.

Lemma first_link_is_internal_witness :
  exists base_url pd s' k ks,
    Example.get_base_url_from_html Example.twice_markup = Ok base_url
    /\ Example.parse_html Example.twice_markup base_url
         (Example.fresh_net Example.quiet) = (Ok pd, s')
    /\ pd_links pd = k :: ks
    /\ l_url k = "http://ext.com/b"
    /\ l_type k = "internal".
Proof.
  assert (Hb : match Bs4.find "base"
                       (Example.BeautifulSoup Example.twice_markup) with
               | Some base_tag => Bs4.get_default base_tag "href" ""
               | None => ""
               end = "") by evaluate.
  assert (Hf : Bs4.find_all_with "a" "href"
                 (Example.BeautifulSoup Example.twice_markup)
               = [Bs4.Tag "a" [("href", "http://ext.com/b")]
                    [Example.text "one"];
                  Bs4.Tag "a" [("href", "http://ext.com/b")]
                    [Example.text "two"]]) by evaluate.
  assert (Hp : Urllib.urlparse Example.check_bracketed_netloc
                 Example.checknetloc
                 (Bs4.get_default
                    (Bs4.Tag "a" [("href", "http://ext.com/b")]
                       [Example.text "one"]) "href" "") ""
               = Ok (Urllib.mkParseResult "http" "ext.com" "/b" "" "" ""))
    by evaluate.
  assert (Hs : Urllib.netloc
                 (Urllib.mkParseResult "http" "ext.com" "/b" "" "" "") = ""
               \/ In (Urllib.scheme
                        (Urllib.mkParseResult "http" "ext.com" "/b" "" "" ""))
                    Urllib.uses_relative)
    by (right; vm_compute; tauto).
  destruct (first_link_is_internal Example.world Example.http
              Example.BeautifulSoup Example.check_bracketed_netloc
              Example.checknetloc Example.twice_markup _ _ _ Hb Hf Hp Hs)
    as (base_url & Hg & Hall).
  assert (G : Example.get_base_url_from_html Example.twice_markup
              = Ok "http://ext.com/") by evaluate.
  unfold Example.get_base_url_from_html in G. rewrite G in Hg.
  inversion Hg; subst base_url.
  assert (H0 : exists pd s',
             Example.parse_html Example.twice_markup "http://ext.com/"
               (Example.fresh_net Example.quiet) = (Ok pd, s')
             /\ map l_url (pd_links pd)
                = ["http://ext.com/b"; "http://ext.com/b"])
    by (eexists; eexists; split; evaluate).
  destruct H0 as (pd & s' & H0 & Hu).
  destruct (Hall _ _ _ H0) as (k & ks & Hl & Hk).
  exists "http://ext.com/", pd, s', k, ks.
  split; [exact G |]. split; [exact H0 |]. split; [exact Hl |].
  split; [| exact Hk].
  rewrite Hl in Hu. now inversion Hu.
Defined.

Lemma classification_against_a_base_witness :
  exists k s',
    Example.check_link "https://example.com/" "/about"
      (Example.fresh_net Example.quiet) = (Ok k, s')
    /\ l_type k = "internal".
Proof.
  eexists. eexists.
  match goal with |- ?A /\ _ => assert (H0 : A) by evaluate end.
  split; [exact H0 |].
  assert (Hb : Urllib.urlparse Example.check_bracketed_netloc
                 Example.checknetloc "https://example.com/" ""
               = Ok (Urllib.mkParseResult "https" "example.com" "/" "" "" ""))
    by evaluate.
  assert (Hu : Urllib.urlparse Example.check_bracketed_netloc
                 Example.checknetloc "/about"
                 (Urllib.scheme
                    (Urllib.mkParseResult "https" "example.com" "/" "" "" ""))
               = Ok (Urllib.mkParseResult "https" "" "/about" "" "" ""))
    by evaluate.
  assert (Hs : In (Urllib.scheme
                     (Urllib.mkParseResult "https" "example.com" "/" "" "" ""))
                 Urllib.uses_relative) by (vm_compute; tauto).
  assert (Hn : Urllib.netloc
                 (Urllib.mkParseResult "https" "example.com" "/" "" "" "")
               <> "") by (vm_compute; discriminate).
  assert (Hh : "/about" <> "") by discriminate.
  apply (proj2 (classification_against_a_base Example.world Example.http
                  Example.check_bracketed_netloc Example.checknetloc
                  "https://example.com/" "/about" _ _ _ _ _
                  Hb Hs Hn Hh Hu eq_refl H0)).
  left. reflexivity.
Defined.
